(** * RNN_Experiments: the clockwork recurrent brick, the lookup table,
      the language-model graph and the experiment flag parser.

    A shallow embedding of [src/bricks.py], [src/parser.py] and
    [src/rnn/build_model/build_model_cw.py].

    Tensors are modelled by their values: a vector is a list, a matrix is a
    list of rows with its column count, a k-dimensional tensor is a shape
    with row-major data.  Tensor entries are kept abstract (class [Scalar]):
    the code never looks inside a float, it only combines entries with
    [+], [-], [*], [%] and [eq]; binary64 floats are one instance
    ([Float64]).  Errors are explicit: an operation of the
    host framework that fails on shapes raises [FrameworkError], a failed
    attribute lookup of the interpreter raises [AttributeError]. *)

From Stdlib Require Import Reals.
From Stdlib Require Import ZArith String DecimalString Bool Arith Lia List.
From Stdlib Require DecimalZ DecimalPos.
From Stdlib Require Floats.
Import ListNotations.
Open Scope string_scope.
Open Scope list_scope.

(** ** Errors *)

Inductive exn : Type :=
| AttributeError (obj attr : string)
| IndexError (what : string)
| TypeError (what : string)
| FrameworkError (msg : string).

Inductive result (A : Type) : Type :=
| Ok (a : A)
| Raise (e : exn).
Arguments Ok {A} a.
Arguments Raise {A} e.

Definition bind {A B : Type} (r : result A) (k : A -> result B) : result B :=
  match r with
  | Ok a => k a
  | Raise e => Raise e
  end.

Notation "x <- c1 ;; c2" := (bind c1 (fun x => c2))
  (at level 61, c1 at next level, right associativity).

(** An error is the framework's when it was raised inside theano, blocks or
    argparse; every other error is raised at a statement of this
    repository. *)
Definition from_framework (e : exn) : bool :=
  match e with
  | FrameworkError _ => true
  | _ => false
  end.

(** ** Tensor entries *)

Class Scalar (F : Type) : Type := {
  of_int : Z -> F;
  fadd : F -> F -> F;
  fsub : F -> F -> F;
  fmul : F -> F -> F;
  fmod : F -> F -> F;
  feqb : F -> F -> bool;
  nan : F
}.

(** Integers are one instance; its [nan] is only a placeholder for the
    not yet initialised entries of a freshly allocated weight matrix. *)
#[export] Instance Z_scalar : Scalar Z := {
  of_int := fun z => z;
  fadd := Z.add;
  fsub := Z.sub;
  fmul := Z.mul;
  fmod := Z.modulo;
  feqb := Z.eqb;
  nan := (-1)%Z
}.

(** ** Vectors and matrices *)

Section Tensors.
Context {F : Type} `{SF : Scalar F}.

Definition vector : Type := list F.

Record matrix : Type := Matrix { ncols : nat; rows : list (list F) }.

Definition nrows (m : matrix) : nat := length (rows m).

(** A matrix of shape (r, c). *)
Definition has_shape (r c : nat) (m : matrix) : Prop :=
  nrows m = r /\ ncols m = c /\ Forall (fun row => length row = c) (rows m).

Definition map2 {A B C : Type} (f : A -> B -> C) (xs : list A) (ys : list B)
  : list C :=
  map (fun p => f (fst p) (snd p)) (combine xs ys).

Definition same_shape (a b : matrix) : bool :=
  (nrows a =? nrows b)%nat && (ncols a =? ncols b)%nat.

(** [a + b] for two matrices: no dimension is broadcastable. *)
Definition madd (a b : matrix) : result matrix :=
  if same_shape a b
  then Ok (Matrix (ncols a) (map2 (map2 fadd) (rows a) (rows b)))
  else Raise (FrameworkError "Input dimension mis-match").

Definition dotp (x y : list F) : F :=
  fold_left fadd (map2 fmul x y) (of_int 0).

Definition column (m : matrix) (j : nat) : list F :=
  map (fun row => nth j row (of_int 0)) (rows m).

(** [tensor.dot(a, b)] for two matrices. *)
Definition dot (a b : matrix) : result matrix :=
  if (ncols a =? nrows b)%nat
  then Ok (Matrix (ncols b)
             (map (fun ra => map (fun j => dotp ra (column b j))
                               (seq 0 (ncols b)))
                  (rows a)))
  else Raise (FrameworkError "Shape mismatch in dot").

Definition mmap (f : F -> F) (m : matrix) : matrix :=
  Matrix (ncols m) (map (map f) (rows m)).

(** [m + c] for a Python number [c]. *)
Definition scalar_add (m : matrix) (c : Z) : matrix :=
  mmap (fun x => fadd x (of_int c)) m.

(** [m[0, 0]]. *)
Definition index00 (m : matrix) : result F :=
  match rows m with
  | (x :: _) :: _ => Ok x
  | _ => Raise (FrameworkError "index out of bounds")
  end.

(** [c - v] for a Python number [c]. *)
Definition scalar_rsub (c : Z) (v : vector) : vector :=
  map (fun x => fsub (of_int c) x) v.

(** [v[:, None] * m]: the column [v] is broadcast along the rows of
    [m]; the row counts must agree. *)
Definition col_mul (v : vector) (m : matrix) : result matrix :=
  if (length v =? nrows m)%nat
  then Ok (Matrix (ncols m) (map2 (fun c row => map (fmul c) row) v (rows m)))
  else Raise (FrameworkError "Input dimension mis-match").

(** [v[None, :]]. *)
Definition row_matrix (v : vector) : matrix := Matrix (length v) [v].

(** [tensor.repeat(m, n, 0)]: every row repeated [n] times. *)
Definition repeat_rows (m : matrix) (n : nat) : matrix :=
  Matrix (ncols m) (flat_map (fun row => repeat row n) (rows m)).

(** [shared_floatx_zeros((n,))], [shared_floatx_nans((n,))] and
    [shared_floatx_nans((r, c))]; numpy refuses a negative dimension. *)
Definition nonneg_dims (ds : list Z) : result unit :=
  if forallb (fun d => (0 <=? d)%Z) ds
  then Ok tt
  else Raise (FrameworkError "negative dimensions are not allowed").

Definition shared_floatx_zeros_vec (n : Z) : result vector :=
  _ <- nonneg_dims [n] ;;
  Ok (repeat (of_int 0) (Z.to_nat n)).

Definition shared_floatx_nans_vec (n : Z) : result vector :=
  _ <- nonneg_dims [n] ;;
  Ok (repeat nan (Z.to_nat n)).

Definition shared_floatx_nans_mat (r c : Z) : result matrix :=
  _ <- nonneg_dims [r; c] ;;
  Ok (Matrix (Z.to_nat c) (repeat (repeat nan (Z.to_nat c)) (Z.to_nat r))).

(** The parameters of a brick: shared variables of one or two
    dimensions, in the order they were appended to [self.params]. *)
Inductive param : Type :=
| PMatrix (m : matrix)
| PVector (v : vector).

Definition param_matrix (ps : list param) (i : nat) : result matrix :=
  match nth_error ps i with
  | Some (PMatrix w) => Ok w
  | Some (PVector _) => Raise (FrameworkError "Wrong number of dimensions")
  | None => Raise (IndexError "list index out of range")
  end.

Definition param_vector (ps : list param) (i : nat) : result vector :=
  match nth_error ps i with
  | Some (PVector v) => Ok v
  | Some (PMatrix _) => Raise (FrameworkError "Wrong number of dimensions")
  | None => Raise (IndexError "list index out of range")
  end.

(** [init.initialize(var, rng)]: an initialisation scheme fills the
    allocated array entry by entry and keeps its shape. *)
Definition fill_matrix (init : nat -> nat -> F) (w : matrix) : matrix :=
  Matrix (ncols w)
    (map (fun i => map (init i) (seq 0 (ncols w))) (seq 0 (nrows w))).

Definition fill_vector (init : nat -> F) (v : vector) : vector :=
  map init (seq 0 (length v)).

(** ** Tensors of any number of dimensions: a shape and row-major data *)

Record tensor (A : Type) : Type := Tensor { shape : list nat; data : list A }.
Arguments Tensor {A} shape data.
Arguments shape {A} t.
Arguments data {A} t.

Definition ndim {A : Type} (t : tensor A) : nat := length (shape t).

Definition size_of (sh : list nat) : nat := fold_right Nat.mul 1%nat sh.

Definition tensor_wf {A : Type} (t : tensor A) : Prop :=
  length (data t) = size_of (shape t).

(** [t.flatten()]. *)
Definition flatten {A : Type} (t : tensor A) : list A := data t.

Fixpoint mapM {A B : Type} (f : A -> result B) (xs : list A)
  : result (list B) :=
  match xs with
  | [] => Ok []
  | x :: rest =>
      y <- f x ;;
      ys <- mapM f rest ;;
      Ok (y :: ys)
  end.

(** [w[i]] for one integer: a negative index counts from the end, an
    index outside [-n, n) is refused. *)
Definition take_row (w : matrix) (i : Z) : result (list F) :=
  let n := Z.of_nat (nrows w) in
  let j := if (i <? 0)%Z then (i + n)%Z else i in
  if (0 <=? j)%Z && (j <? n)%Z
  then match nth_error (rows w) (Z.to_nat j) with
       | Some row => Ok row
       | None => Raise (FrameworkError "index out of bounds")
       end
  else Raise (FrameworkError "index out of bounds").

(** [w[idx]] for a vector of integers: the selected rows, in order. *)
Definition take_rows (w : matrix) (idx : list Z) : result matrix :=
  rs <- mapM (take_row w) idx ;;
  Ok (Matrix (ncols w) rs).

(** [m.reshape(sh)]: the same data under a shape of the same size. *)
Definition reshape (m : matrix) (sh : list Z) : result (tensor F) :=
  _ <- nonneg_dims sh ;;
  let sh' := map Z.to_nat sh in
  if (size_of sh' =? nrows m * ncols m)%nat
  then Ok (Tensor sh' (concat (rows m)))
  else Raise (FrameworkError "total size of new array must be unchanged").

(** [t + v] for a vector [v]: [v] is broadcast along every axis but the
    last, whose length must be that of [v]. *)
Definition add_last_axis (t : tensor F) (v : vector) : result (tensor F) :=
  if (last (shape t) 0%nat =? length v)%nat && negb (ndim t =? 0)%nat
  then Ok (Tensor (shape t)
             (map (fun p => fadd (nth p (data t) (of_int 0))
                                 (nth (p mod length v) v (of_int 0)))
                  (seq 0 (length (data t)))))
  else Raise (FrameworkError "Input dimension mis-match").

End Tensors.

Arguments vector F : clear implicits.
Arguments matrix F : clear implicits.
Arguments param F : clear implicits.
Arguments Tensor {A} shape data.
Arguments shape {A} t.
Arguments data {A} t.

(** ** LookupTable *)

Module LookupTable.
Section Brick.
Context {F : Type} `{SF : Scalar F}.

Record t : Type := mk {
  length : Z;
  dim : Z;
  params : list (param F)
}.

Definition init (len d : Z) : t := mk len d [].

Definition set_params (self : t) (ps : list (param F)) : t :=
  mk (length self) (dim self) ps.

Definition W (self : t) : result (matrix F) := param_matrix (params self) 0.

Definition b (self : t) : result (vector F) := param_vector (params self) 1.

Definition _allocate (self : t) : result t :=
  w <- shared_floatx_nans_mat (length self) (dim self) ;;
  let ps := params self ++ [PMatrix w] in
  bias <- shared_floatx_nans_vec (dim self) ;;
  let ps := ps ++ [PVector bias] in
  Ok (set_params self ps).

Definition _initialize (weights_init : nat -> nat -> F)
    (biases_init : nat -> F) (self : t) : result t :=
  w <- W self ;;
  bias <- b self ;;
  Ok (set_params self
        (PMatrix (fill_matrix weights_init w)
           :: PVector (fill_vector biases_init bias)
           :: tl (tl (params self)))).

(** [[indices.shape[i] for i in range(indices.ndim)] + [self.dim]]. *)
Definition output_shape (self : t) (indices : tensor Z) : list Z :=
  map (fun i => Z.of_nat (nth i (shape indices) 0%nat)) (seq 0 (ndim indices))
    ++ [dim self].

(** [LookupTable.apply]; the index tensor holds integers, so
    [check_theano_variable(indices, None, "int")] passes. *)
Definition apply (self : t) (indices : tensor Z) : result (tensor F) :=
  w <- W self ;;
  bias <- b self ;;
  taken <- take_rows w (flatten indices) ;;
  reshaped <- reshape taken (output_shape self indices) ;;
  add_last_axis reshaped bias.

End Brick.
Arguments t F : clear implicits.
End LookupTable.

(** ** ClockworkBase *)

Module ClockworkBase.
Section Brick.
Context {F : Type} `{SF : Scalar F}.

Record t : Type := mk {
  dim : Z;
  period : Z;
  activation : F -> F;     (* children[0], applied entry by entry *)
  params : list (param F)
}.

Definition init (d : Z) (p : Z) (act : F -> F) : t := mk d p act [].

Definition set_params (self : t) (ps : list (param F)) : t :=
  mk (dim self) (period self) (activation self) ps.

Definition W (self : t) : result (matrix F) := param_matrix (params self) 0.

Definition _allocate (self : t) : result t :=
  w <- shared_floatx_nans_mat (dim self) (dim self) ;;
  let ps := params self ++ [PMatrix w] in
  s0 <- shared_floatx_zeros_vec (dim self) ;;
  let ps := ps ++ [PVector s0] in
  t0 <- shared_floatx_zeros_vec 1 ;;
  let ps := ps ++ [PVector t0] in
  Ok (set_params self ps).

Definition _initialize (weights_init : nat -> nat -> F) (self : t)
  : result t :=
  w <- W self ;;
  Ok (set_params self (PMatrix (fill_matrix weights_init w) :: tl (params self))).

(** [tensor.eq(time[0, 0] % self.period, 0)]. *)
Definition fires (self : t) (t00 : F) : bool :=
  feqb (fmod t00 (of_int (period self))) (of_int 0).

(** The body of [ClockworkBase.apply]: one step of the transition.  The
    framework's [ifelse] is lazy, only the chosen branch is computed.
    A symbolic variable is true in [if mask:], [None] is false. *)
Definition apply (self : t) (inputs states time : matrix F)
    (mask : option (vector F)) : result (matrix F * matrix F) :=
  t00 <- index00 time ;;
  next_states <-
    (if fires self t00
     then w <- W self ;;
          sw <- dot states w ;;
          pre <- madd inputs sw ;;
          Ok (mmap (activation self) pre)
     else Ok states) ;;
  next_states <-
    match mask with
    | Some m =>
        on <- col_mul m next_states ;;
        off <- col_mul (scalar_rsub 1 m) states ;;
        madd on off
    | None => Ok next_states
    end ;;
  Ok (next_states, scalar_add time 1).

(** [ClockworkBase.initial_states]. *)
Definition initial_states (self : t) (batch_size : nat)
  : result (matrix F * matrix F) :=
  s0 <- param_vector (params self) 1 ;;
  t0 <- param_vector (params self) 2 ;;
  Ok (repeat_rows (row_matrix s0) batch_size, row_matrix t0).

(** The recurrent wrapper applies the step along the sequences,
    threading the states and the time from one step to the next. *)
Fixpoint iterate (self : t) (steps : list (matrix F * option (vector F)))
    (states time : matrix F) : result (matrix F * matrix F) :=
  match steps with
  | [] => Ok (states, time)
  | (inputs, mask) :: rest =>
      st <- apply self inputs states time mask ;;
      iterate self rest (fst st) (snd st)
  end.

End Brick.
Arguments t F : clear implicits.
End ClockworkBase.

(** ** Python values and attribute lookup *)

(** A float literal [m * 10^e] is kept as written. *)
Inductive pyval : Type :=
| VInt (z : Z)
| VFloat (mantissa exponent : Z)
| VStr (s : string)
| VBool (b : bool).

(** An [argparse.Namespace]: attribute names with their values. *)
Definition namespace : Type := list (string * pyval).

Fixpoint lookup (name : string) (ns : namespace) : option pyval :=
  match ns with
  | [] => None
  | (k, v) :: rest => if String.eqb k name then Some v else lookup name rest
  end.

(** [args.name]. *)
Definition getattr (ns : namespace) (name : string) : result pyval :=
  match lookup name ns with
  | Some v => Ok v
  | None => Raise (AttributeError "Namespace" name)
  end.

(** ** The command line parser, [src/parser.py] *)

Module argparse.

Inductive argtype : Type := TInt | TFloat | TStr.

Inductive default : Type :=
| Default (v : pyval)
| SUPPRESS.

(** One [add_argument] call: the flag, [type=], [default=] and
    [choices=]. *)
Record argument : Type := Argument {
  flag : string;
  type : argtype;
  default_of : default;
  choices : option (list string)
}.

Record ArgumentParser : Type := mkParser {
  description : string;
  arguments : list argument
}.

Definition new (descr : string) : ArgumentParser := mkParser descr [].

(** [--name] is stored under [name]. *)
Definition dest (a : argument) : string :=
  let f := flag a in
  if String.prefix "--" f then String.substring 2 (String.length f - 2) f
  else f.

Definition add_argument (a : argument) (p : ArgumentParser)
  : ArgumentParser :=
  mkParser (description p) (arguments p ++ [a]).

(** [parser.<name>(...)] for a method that registers an argument: the
    interpreter first looks the attribute [name] up on the parser
    object, and [add_argument] is the only such method it has. *)
Definition call_method (p : ArgumentParser) (name : string) (a : argument)
  : result ArgumentParser :=
  if String.eqb name "add_argument"
  then Ok (add_argument a p)
  else Raise (AttributeError "ArgumentParser" name).

(** The namespace before any token is read: every argument whose
    default is not suppressed. *)
Definition defaults (p : ArgumentParser) : namespace :=
  fold_left
    (fun ns a =>
       match default_of a with
       | Default v => ns ++ [(dest a, v)]
       | SUPPRESS => ns
       end)
    (arguments p) [].

Section Parse.
(** How argparse reads a command line that has tokens is the
    library's business. *)
Variable parse_tokens : ArgumentParser -> list string -> result namespace.

(** [parser.parse_args()] on the command line [argv] (without the
    program name). *)
Definition parse_args (p : ArgumentParser) (argv : list string)
  : result namespace :=
  match argv with
  | [] => Ok (defaults p)
  | _ => parse_tokens p argv
  end.
End Parse.

End argparse.

Module parser.
Section Parser.
Import argparse.
Variable parse_tokens : ArgumentParser -> list string -> result namespace.

Definition arg (f : string) (ty : argtype) (d : default) : argument :=
  Argument f ty d None.

Definition choice (f : string) (cs : list string) (d : string) : argument :=
  Argument f TStr (Default (VStr d)) (Some cs).

(** The statements of [parse_args] after the parser is made: the method
    name as it is spelled in the source, and the argument it is given. *)
Definition statements : list (string * argument) :=
  [ ("add_argument", arg "--mini_batch_size" TInt (Default (VInt 5)));
    ("add_argument", arg "--time_length" TInt (Default (VInt 200)));
    ("add_argupent", arg "--context" TInt (Default (VInt 20)));
    ("add_argument", arg "--load_path" TStr SUPPRESS);
    ("add_argument", arg "--save_path" TStr SUPPRESS);
    ("add_argument", arg "--patience" TInt (Default (VInt 5)));
    ("add_argument", arg "--state_dim" TInt (Default (VInt 1000)));
    ("add_argument", arg "--learning_rate" TFloat (Default (VFloat 1 (-3))));
    ("add_argument", arg "--momentum" TFloat (Default (VFloat 9 (-1))));
    ("add_argument", arg "--clipping" TFloat (Default (VInt 10)));
    ("add_argument", choice "--algorithm" ["rms_prop"; "adam"; "sgd"] "adam");
    ("add_argument", choice "--rnn_type" ["lstm"; "simple"] "simple");
    ("add_argument", choice "--dataset" ["wikipedia"; "penntree"] "penntree") ].

(** The statements run in order; the first one that raises ends the
    function. *)
Fixpoint run (stmts : list (string * argument)) (p : ArgumentParser)
  : result ArgumentParser :=
  match stmts with
  | [] => Ok p
  | (method, a) :: rest =>
      p' <- call_method p method a ;;
      run rest p'
  end.

Definition parse_args (argv : list string) : result namespace :=
  p <- run statements (new "RNN_experiment") ;;
  argparse.parse_args parse_tokens p argv.

(** The flag set as the specification words it: every flag, [--context]
    among them, registered through [add_argument]. *)
Definition statements_as_specified : list (string * argument) :=
  map (fun s => ("add_argument", snd s)) statements.

Definition parse_args_as_specified (argv : list string) : result namespace :=
  p <- run statements_as_specified (new "RNN_experiment") ;;
  argparse.parse_args parse_tokens p argv.

End Parser.
End parser.

(** ** The model graph, [src/rnn/build_model/build_model_cw.py] *)

(** [str(d)] for an integer. *)
Definition str (d : Z) : string := NilZero.string_of_int (Z.to_int d).

(** [range(n)]. *)
Definition range (n : Z) : list Z := map Z.of_nat (seq 0 (Z.to_nat n)).

(** An integer attribute; the parser declares it with [type=int]. *)
Definition as_int (v : pyval) : result Z :=
  match v with
  | VInt z => Ok z
  | VBool b => Ok (if b then 1 else 0)%Z
  | _ => Raise (TypeError "an integer is required")
  end.

(** The truth value of [if v]. *)
Definition truthy (v : pyval) : bool :=
  match v with
  | VInt z => negb (z =? 0)%Z
  | VFloat m _ => negb (m =? 0)%Z
  | VStr s => negb (String.eqb s "")
  | VBool b => b
  end.

Section Graph.
Context {F : Type} `{SF : Scalar F}.
(** The entry function of the [Tanh()] brick. *)
Variable tanh : F -> F.

Set Warnings "-register-all".

(** The bricks of the framework that the model is wired from, with the
    arguments they are constructed with. *)
Inductive brick : Type :=
| Fork (output_names : list string) (input_dim : pyval)
       (output_dims : list Z) (prototype : LookupTable.t F)
| RecurrentStack (transitions : list (ClockworkBase.t F))
                 (skip_connections : bool)
| Linear (name : string) (input_dim output_dim : Z)
| Softmax.

(** Symbolic variables.  [Shared name r c] is a shared variable holding
    an array of shape (r, c); [BrickOut b method args i] is output [i] of the
    application [b.method(args)], [Subscript e i] is [e[i]], [LastStep e]
    is [e[-1, :, :]], [SliceFrom e c] is [e[c:]], [PyList] is a Python
    list of variables given as one argument, and [Named] is a variable
    whose [name] attribute was set. *)
Inductive graph : Type :=
| Var (name : string)
| Shared (name : string) (nrows ncols : Z)
| Const (c : Z)
| Log (e : graph)
| Add (a b : graph)
| Mul (a b : graph)
| Div (a b : graph)
| ShapeOf (e : graph) (axis : nat)
| SliceFrom (e : graph) (start : Z)
| Subscript (e : graph) (i : Z)
| LastStep (e : graph)
| PyList (es : list graph)
| Flatten (e : graph)
| Reshape (e : graph) (new_shape : list graph)
| Concatenate (es : list graph) (axis : nat)
| BrickOut (b : brick) (method : string) (args : list (string * graph))
           (output : nat)
| Named (name : string) (e : graph).

(** What an application returns: one variable when the brick has one
    output, a list otherwise. *)
Inductive applied : Type :=
| One (g : graph)
| Many (gs : list graph).

Definition outputs (b : brick) (method : string)
    (args : list (string * graph)) (n : nat) : applied :=
  match n with
  | 1%nat => One (BrickOut b method args 0)
  | _ => Many (map (BrickOut b method args) (seq 0 n))
  end.

Definition suffix_of (d : Z) : string :=
  if (d >? 0)%Z then ("_" ++ str d)%string else "".

(** Lines 38-47: the names and dimensions of the fork's outputs. *)
Definition output_names (layers : Z) (skip_connections : bool)
  : list string :=
  flat_map (fun d => if (d =? 0)%Z || skip_connections
                     then [("inputs" ++ suffix_of d)%string] else [])
           (range layers).

Definition output_dims (layers state_dim : Z) (skip_connections : bool)
  : list Z :=
  flat_map (fun d => if (d =? 0)%Z || skip_connections
                     then [state_dim] else [])
           (range layers).

(** Lines 61-62: one clockwork transition per layer. *)
Definition transitions (state_dim layers : Z) : list (ClockworkBase.t F) :=
  map (fun i => ClockworkBase.init state_dim (2 ^ (layers - i - 1))%Z tanh)
      (range layers).

(** Lines 77-81: naming the inputs of the layers. *)
Definition name_pre_rnn (skip_connections : bool) (pre_rnn : applied)
  : result applied :=
  if skip_connections then
    match pre_rnn with
    | Many gs =>
        Ok (Many (map (fun tg => Named ("pre_rnn_" ++ str (Z.of_nat (fst tg)))%string
                                       (snd tg))
                      (combine (seq 0 (length gs)) gs)))
    | One _ => Raise (TypeError "object of type 'TensorVariable' has no len()")
    end
  else
    match pre_rnn with
    | One g => Ok (One (Named "pre_rnn" g))
    | Many _ => Raise (AttributeError "list" "name")
    end.

(** A size handed to numpy: an integer that is not negative. *)
Definition numpy_dim (v : pyval) : result Z :=
  match v with
  | VInt z =>
      if (0 <=? z)%Z then Ok z
      else Raise (FrameworkError "negative dimensions are not allowed")
  | VBool b => Ok (if b then 1 else 0)%Z
  | _ => Raise (FrameworkError "an integer is required")
  end.

(** A bound of a slice of a symbolic variable: an integer. *)
Definition slice_bound (v : pyval) : result Z :=
  match v with
  | VInt z => Ok z
  | VBool b => Ok (if b then 1 else 0)%Z
  | _ => Raise (FrameworkError "slice bounds must be integers")
  end.

(** Lines 95-97:
    [theano.shared(numpy.zeros((args.mini_batch_size, state_dim)),
    name='state0_%d' % d)]; numpy builds the array when the line runs. *)
Definition init_state (mini_batch_size : pyval) (state_dim d : Z)
  : result graph :=
  rows <- numpy_dim mini_batch_size ;;
  cols <- numpy_dim (VInt state_dim) ;;
  Ok (Shared ("state0_" ++ str d)%string rows cols).

(** Lines 84-98, one turn of the loop: the keyword arguments that layer
    [d] adds for the recurrent stack, and its initial state
    [init_states[d]]. *)
Definition layer_kwargs (skip_connections : bool) (pre_rnn : applied)
    (mini_batch_size : pyval) (state_dim d : Z)
  : result (list (string * graph) * graph) :=
  inputs <-
    (if skip_connections then
       match pre_rnn with
       | Many gs =>
           match nth_error gs (Z.to_nat d) with
           | Some g => Ok [(("inputs" ++ suffix_of d)%string, g)]
           | None => Raise (IndexError "list index out of range")
           end
       | One g => Ok [(("inputs" ++ suffix_of d)%string, Subscript g d)]
       end
     else if (d =? 0)%Z then
       match pre_rnn with
       | One g => Ok [("inputs", g)]
       | Many gs => Ok [("inputs", PyList gs)]
       end
     else Ok []) ;;
  state0 <- init_state mini_batch_size state_dim d ;;
  Ok (inputs ++ [(("states" ++ suffix_of d)%string, state0)], state0).

Definition every_second {A : Type} (xs : list A) : list A :=
  map snd (filter (fun ix => Nat.even (fst ix)) (combine (seq 0 (length xs)) xs)).

(** The local variables of [build_model_cw] that the result is made
    of. *)
Record locals : Type := Locals {
  l_rnn : brick;
  l_h : graph;
  l_presoft : graph;
  l_cross_entropy : graph;
  l_cost : graph;
  l_updates : list (graph * graph)
}.

(** [build_model_cw] up to its return statement.  The attributes are
    read as they are; [range(layers)] needs an integer.  The constructors
    of the bricks keep their arguments and allocate nothing; the sizes are
    first used at line 74, where applying the fork allocates the lookup
    table, and at lines 95-97, where numpy builds the initial states.  An
    empty stack has no output to allocate or to name.  The initialisation
    calls of lines 150-158 set the values of the parameters and leave the
    graph as it is. *)
Definition build (vocab_size : Z) (args : namespace) : result locals :=
  context <- getattr args "context" ;;
  state_dim <- getattr args "state_dim" ;;
  layers <- getattr args "layers" ;;
  skip <- getattr args "skip_connections" ;;
  let skip_connections := truthy skip in
  let x := Var "features" in
  let y := Var "targets" in
  layers <- as_int layers ;;
  let names := output_names layers skip_connections in
  mini_batch_size <- getattr args "mini_batch_size" ;;
  if (layers <? 1)%Z then
    (if skip_connections
     then Raise (IndexError "list index out of range")
     else Raise (AttributeError "list" "name"))
  else
  state_dim <- numpy_dim state_dim ;;
  _ <- LookupTable._allocate (LookupTable.init vocab_size state_dim) ;;
  let dims := output_dims layers state_dim skip_connections in
  let lookup := LookupTable.init vocab_size state_dim in
  let fork := Fork names mini_batch_size dims lookup in
  let rnn := RecurrentStack (transitions state_dim layers) skip_connections in
  let output_layer := Linear "output_layer" (layers * state_dim) vocab_size in
  pre_rnn <- name_pre_rnn skip_connections
               (outputs fork "apply" [("", x)] (length names)) ;;
  turns <- mapM (layer_kwargs skip_connections pre_rnn mini_batch_size state_dim)
                (range layers) ;;
  let kwargs := concat (map fst turns) in
  let init_states := map snd turns in
  let h := every_second
             (map (BrickOut rnn "apply" kwargs)
                  (seq 0 (2 * Z.to_nat layers))) in
  hs <- (if (layers >? 1)%Z
         then Ok (Named "hidden_state" (Concatenate h 2), map LastStep h)
         else match h with
              | h0 :: _ =>
                  let named := Named "hidden_state" h0 in
                  Ok (named, [LastStep named])
              | [] => Raise (IndexError "list index out of range")
              end) ;;
  let h := fst hs in
  let updates := combine init_states (snd hs) in
  context <- slice_bound context ;;
  let presoft := Named "presoft"
                   (BrickOut output_layer "apply" [("", SliceFrom h context)] 0) in
  let time := ShapeOf presoft 0 in
  let batch := ShapeOf presoft 1 in
  let feat := ShapeOf presoft 2 in
  let cross_entropy :=
    BrickOut Softmax "categorical_cross_entropy"
      [("", Flatten (SliceFrom y context));
       ("", Reshape presoft [Mul batch time; feat])] 0 in
  let cross_entropy := Named "cross_entropy" (Div cross_entropy (Log (Const 2))) in
  let cost := Named "regularized_cost" (Add cross_entropy (Log (Const 1))) in
  Ok (Locals rnn h presoft cross_entropy cost updates).

(** [build_model_cw(vocab_size, args)]: the cost, the cross-entropy and
    the updates of the hidden states. *)
Definition build_model_cw (vocab_size : Z) (args : namespace)
  : result (graph * graph * list (graph * graph)) :=
  l <- build vocab_size args ;;
  Ok (l_cost l, l_cross_entropy l, l_updates l).

(** The value of a scalar variable, given the values [rho] of the
    variables that the framework's bricks and tensor operations
    compute. *)
Fixpoint eval (rho : graph -> R) (g : graph) : R :=
  match g with
  | Const c => IZR c
  | Log e => ln (eval rho e)
  | Add a b => (eval rho a + eval rho b)%R
  | Mul a b => (eval rho a * eval rho b)%R
  | Div a b => (eval rho a / eval rho b)%R
  | Named _ e => eval rho e
  | other => rho other
  end.

End Graph.

(** ** Further parts of the bricks *)

(** The time counter holds whole numbers; on those, [%] and [eq] of the
    entries agree with the integers. *)
Class CountingScalar (F : Type) `{Scalar F} : Prop := {
  fmod_of_int : forall a b : Z,
    (0 < b)%Z -> fmod (of_int a) (of_int b) = of_int (a mod b) :> F;
  feqb_of_int : forall a b : Z, feqb (of_int a : F) (of_int b) = (a =? b)%Z
}.

Section Dims.
Context {F : Type} `{SF : Scalar F}.

(** [ClockworkBase.get_dim]; [apply.sequences + apply.states] is
    [['inputs', 'mask', 'states', 'time']], and the base class knows no
    other name. *)
Definition get_dim (self : ClockworkBase.t F) (name : string) : result Z :=
  if String.eqb name "mask" then Ok 0%Z
  else if existsb (String.eqb name) ["inputs"; "mask"; "states"; "time"]
  then Ok (ClockworkBase.dim self)
  else Raise (FrameworkError "No dimension information available").

End Dims.

(** ** Entries that are floats *)

Section Values.
Context {F : Type} `{SF : Scalar F}.

(** [x - x == 0]: neither an infinity nor a NaN. *)
Definition finite_entry (x : F) : bool := feqb (fsub x x) (of_int 0).

(** [x == 0]: a zero of either sign. *)
Definition zero_entry (x : F) : bool := feqb x (of_int 0).

(** The same float, or two floats that compare equal (the two zeros). *)
Definition same_value (a b : F) : Prop := a = b \/ feqb a b = true.

(** Up to [B] the counter is exact: adding one to a whole number below
    [B] gives the next whole number. *)
Definition counts_to (B : Z) : Prop :=
  forall z, (0 <= z < B)%Z -> fadd (of_int z) (of_int 1) = of_int (z + 1) :> F.

(** Below [B] the gate of period [p] reads the whole-number clock. *)
Definition reads_clock (p B : Z) : Prop :=
  forall z, (0 <= z < B)%Z ->
    feqb (fmod (of_int z : F) (of_int p)) (of_int 0) = (z mod p =? 0)%Z.

End Values.

(** The laws of floating-point arithmetic that the masking relies on:
    multiplying by one is exact, zero times a finite entry is a zero, and
    adding a zero keeps the value. *)
Class FloatLaws (F : Type) `{Scalar F} : Prop := {
  fmul_one_l : forall s : F, fmul (of_int 1) s = s;
  fsub_one_zero : fsub (of_int 1) (of_int 0) = of_int 1 :> F;
  fsub_one_one : fsub (of_int 1) (of_int 1) = of_int 0 :> F;
  zero_times_finite :
    forall x : F, finite_entry x = true ->
                  zero_entry (fmul (of_int 0) x) = true;
  zero_plus : forall z s : F, zero_entry z = true -> same_value (fadd z s) s;
  plus_zero : forall x z : F, zero_entry z = true -> same_value (fadd x z) x
}.

(** Binary64, the default [floatX]. *)
Module Float64.
Import Floats.

(** A Python integer as a float: rounded to the nearest, ties to even. *)
Definition of_Z (z : Z) : float := SF2Prim (binary_normalize prec emax z 0 false).

(** C's [fmod]: the exact remainder of the truncated division, with the
    sign of [x]. *)
Definition c_fmod (x y : float) : float :=
  match Prim2SF x, Prim2SF y with
  | S754_nan, _ | _, S754_nan => PrimFloat.nan
  | S754_infinity _, _ => PrimFloat.nan
  | _, S754_zero _ => PrimFloat.nan
  | S754_zero _, _ => x
  | S754_finite _ _ _, S754_infinity _ => x
  | S754_finite sx mx ex, S754_finite _ my ey =>
      let e := Z.min ex ey in
      let ax := (Z.pos mx * 2 ^ (ex - e))%Z in
      let ay := (Z.pos my * 2 ^ (ey - e))%Z in
      SF2Prim (binary_normalize prec emax (cond_Zopp sx (ax mod ay)%Z) e sx)
  end.

(** [x % y] on float tensors: [fmod] brought to the sign convention of
    Python, the result has the sign of [y]. *)
Definition theano_mod (x y : float) : float :=
  if (x <? 0)%float then
    if (y <? 0)%float then (- c_fmod (- x) (- y))%float
    else let r := c_fmod (- x) y in
         (- r + (if (r =? 0)%float then 0 else y))%float
  else if (y <? 0)%float then
    let r := c_fmod x (- y) in
    (r + (if (r =? 0)%float then 0 else y))%float
  else c_fmod x y.

#[export] Instance float_scalar : Scalar float := {
  of_int := of_Z;
  fadd := PrimFloat.add;
  fsub := PrimFloat.sub;
  fmul := PrimFloat.mul;
  fmod := theano_mod;
  feqb := PrimFloat.eqb;
  nan := PrimFloat.nan
}.

End Float64.

(** ** A small concrete model over the integers *)

Module Example.

Definition W : matrix Z := Matrix 2 [[0; 2]; [1; 3]]%Z.

(** A clockwork brick of dimension 2 and period 2 whose activation
    multiplies by ten. *)
Definition brick : ClockworkBase.t Z :=
  ClockworkBase.mk 2 2 (fun x => x * 10)%Z
    [PMatrix W; PVector [0; 0]%Z; PVector [0%Z]].

Definition inputs : matrix Z := Matrix 2 [[1; 2]; [3; 4]; [5; 6]]%Z.
Definition states : matrix Z := Matrix 2 [[1; 1]; [2; 2]; [3; 3]]%Z.
Definition time : matrix Z := Matrix 1 [[4%Z]].
Definition mask : vector Z := [1; 0; 1]%Z.

Definition steps : list (matrix Z * option (vector Z)) :=
  [(inputs, None); (inputs, Some mask); (inputs, None)].

(** A lookup table of three representations of dimension 2. *)
Definition table : LookupTable.t Z :=
  LookupTable.mk 3 2
    [PMatrix (Matrix 2 [[0; 1]; [10; 11]; [20; 21]]%Z); PVector [0; 100]%Z].

Definition indices : tensor Z := Tensor [2; 2]%nat [0; 2; 1; 1]%Z.

(** The attributes that [build_model_cw] reads. *)
Definition args : namespace :=
  [("context", VInt 20); ("state_dim", VInt 7); ("layers", VInt 3);
   ("skip_connections", VBool true); ("mini_batch_size", VInt 5)].

End Example.

(** ** A small concrete model over binary64 *)

Module FloatExample.
Import Floats Float64.

(** A brick of dimension 1 and period 1 whose weights are as allocated,
    not yet initialised. *)
Definition fresh : ClockworkBase.t float :=
  ClockworkBase.mk 1 1 (fun x => x)
    [PMatrix (Matrix 1 [[PrimFloat.nan]]); PVector [0%float];
     PVector [0%float]].

(** A brick of dimension 2 and period 2 with the identity activation. *)
Definition W : matrix float := Matrix 2 [[0.5; 1]; [-1; 2]]%float.

Definition brick : ClockworkBase.t float :=
  ClockworkBase.mk 2 2 (fun x => x)
    [PMatrix W; PVector [0; 0]%float; PVector [0%float]].

Definition inputs : matrix float := Matrix 2 [[1; 2]; [3; 4]; [5; 6]]%float.
Definition states : matrix float :=
  Matrix 2 [[1; 1]; [2; -0.5]; [3; 0.25]]%float.
Definition time : matrix float := Matrix 1 [[4%float]].
Definition mask : vector float := [1; 0; 1]%float.

Definition steps : list (matrix float * option (vector float)) :=
  [(inputs, None); (inputs, Some mask); (inputs, None)].

(** 2^53, from where on binary64 no longer holds every whole number. *)
Definition big : Z := 9007199254740992.

(** 2^1023, a finite float whose double overflows. *)
Definition huge : float := 0x1p+1023%float.

(** A brick of dimension 1 and period [p] with the weight 1 and the
    identity activation, and one step over a batch of one sequence. *)
Definition unit_brick (p : Z) : ClockworkBase.t float :=
  ClockworkBase.mk 1 p (fun x => x)
    [PMatrix (Matrix 1 [[1%float]]); PVector [0%float]; PVector [0%float]].

Definition unit_step : matrix float * option (vector float) :=
  (Matrix 1 [[0%float]], None).

End FloatExample.

(** * Properties *)


(** ** Shapes of the matrix operations *)

Section TensorFacts.
Context {F : Type} `{SF : Scalar F}.

Lemma map2_length {A B C : Type} (f : A -> B -> C) xs ys :
  length (map2 f xs ys) = Nat.min (length xs) (length ys).
Proof.
  unfold map2. now rewrite length_map, length_combine.
Qed.

Lemma nth_error_map2 {A B C : Type} (f : A -> B -> C) xs ys i :
  nth_error (map2 f xs ys) i =
  match nth_error xs i, nth_error ys i with
  | Some x, Some y => Some (f x y)
  | _, _ => None
  end.
Proof.
  revert ys i; induction xs as [|x xs IH]; intros [|y ys] [|i]; simpl; auto.
  - now destruct (nth_error xs i).
  - apply IH.
Qed.

Lemma Forall_map2 {A B C : Type} (P : C -> Prop) (f : A -> B -> C) xs ys :
  (forall x y, In x xs -> In y ys -> P (f x y)) -> Forall P (map2 f xs ys).
Proof.
  intros HP. unfold map2. apply Forall_forall. intros c Hc.
  apply in_map_iff in Hc as [[x y] [<- Hin]]. simpl.
  apply HP; [eapply in_combine_l | eapply in_combine_r]; eauto.
Qed.

Lemma has_shape_rows r c (m : matrix F) row :
  has_shape r c m -> In row (rows m) -> length row = c.
Proof.
  intros (_ & _ & Hall) Hin. rewrite Forall_forall in Hall. auto.
Qed.

Lemma madd_shape r c (a b : matrix F) :
  has_shape r c a -> has_shape r c b ->
  madd a b = Ok (Matrix c (map2 (map2 fadd) (rows a) (rows b))) /\
  has_shape r c (Matrix c (map2 (map2 fadd) (rows a) (rows b))).
Proof.
  intros Ha Hb. pose proof Ha as (Ra & Ca & Fa). pose proof Hb as (Rb & Cb & Fb).
  unfold madd, same_shape. rewrite Ra, Rb, Ca, Cb, !Nat.eqb_refl. simpl.
  split; [reflexivity|]. unfold has_shape, nrows in *. simpl.
  repeat split.
  - rewrite map2_length. lia.
  - apply Forall_map2. intros x y Hx Hy. rewrite map2_length.
    rewrite (has_shape_rows _ _ _ _ Ha Hx), (has_shape_rows _ _ _ _ Hb Hy). lia.
Qed.

Lemma dot_shape r k c (a b : matrix F) :
  has_shape r k a -> has_shape k c b ->
  exists m, dot a b = Ok m /\ has_shape r c m.
Proof.
  intros (Ra & Ca & Fa) (Rb & Cb & Fb).
  unfold dot. rewrite Ca, Rb, Nat.eqb_refl. eexists; split; [reflexivity|].
  unfold has_shape, nrows in *; simpl. repeat split.
  - now rewrite length_map.
  - assumption.
  - apply Forall_forall. intros row Hin.
    apply in_map_iff in Hin as [ra [<- _]].
    now rewrite length_map, length_seq.
Qed.

Lemma mmap_shape r c f (m : matrix F) :
  has_shape r c m -> has_shape r c (mmap f m).
Proof.
  intros (Rm & Cm & Fm). unfold has_shape, mmap, nrows in *; simpl.
  repeat split; [now rewrite length_map | assumption |].
  apply Forall_forall. intros row Hin.
  apply in_map_iff in Hin as [r0 [<- Hr0]]. rewrite length_map.
  rewrite Forall_forall in Fm; auto.
Qed.

Lemma col_mul_shape r c (v : vector F) (m : matrix F) :
  length v = r -> has_shape r c m ->
  col_mul v m = Ok (Matrix c (map2 (fun x row => map (fmul x) row) v (rows m))) /\
  has_shape r c (Matrix c (map2 (fun x row => map (fmul x) row) v (rows m))).
Proof.
  intros Hv Hm. pose proof Hm as (Rm & Cm & Fm).
  unfold col_mul. rewrite Hv, Rm, Nat.eqb_refl, Cm. split; [reflexivity|].
  unfold has_shape, nrows in *; simpl. repeat split.
  - rewrite map2_length. lia.
  - apply Forall_map2. intros x row _ Hrow. rewrite length_map.
    eapply has_shape_rows; eauto.
Qed.

Lemma scalar_rsub_length c (v : vector F) :
  length (scalar_rsub c v) = length v.
Proof. unfold scalar_rsub. apply length_map. Qed.

End TensorFacts.

(** ** The clockwork transition *)

Section ClockworkFacts.
Context {F : Type} `{SF : Scalar F}.
Import ClockworkBase.

(** The candidate state [activation(inputs + states . W)] exists and has
    the shape of the states whenever the shapes fit. *)
Lemma update_shape (self : ClockworkBase.t F) inputs states w b d :
  has_shape d d w -> has_shape b d inputs -> has_shape b d states ->
  exists update,
    (sw <- dot states w ;;
     pre <- madd inputs sw ;;
     Ok (mmap (activation self) pre)) = Ok update /\
    has_shape b d update.
Proof.
  intros Hw Hi Hs.
  destruct (dot_shape _ _ _ _ _ Hs Hw) as [sw [Esw Hsw]].
  destruct (madd_shape _ _ _ _ Hi Hsw) as [Epre Hpre].
  rewrite Esw. simpl. rewrite Epre. simpl.
  eexists; split; [reflexivity|]. now apply mmap_shape.
Qed.

(** One unmasked step, as a function of the gate. *)
Lemma apply_unmasked (self : ClockworkBase.t F) inputs states time w t00 b d :
  W self = Ok w -> has_shape d d w ->
  has_shape b d inputs -> has_shape b d states ->
  index00 time = Ok t00 ->
  exists update,
    (sw <- dot states w ;;
     pre <- madd inputs sw ;;
     Ok (mmap (activation self) pre)) = Ok update /\
    has_shape b d update /\
    apply self inputs states time None =
      Ok (if fires self t00 then update else states, scalar_add time 1).
Proof.
  intros HW Hw Hi Hs Ht.
  destruct (update_shape self inputs states w b d Hw Hi Hs) as [u [Eu Hu]].
  exists u. split; [exact Eu | split; [exact Hu |]].
  unfold apply. rewrite Ht. simpl.
  destruct (fires self t00); [|reflexivity].
  rewrite HW. simpl. rewrite Eu. reflexivity.
Qed.

(** C1: without a mask, the next state is
    [activation(inputs + states . W)] when [time[0, 0] % period] equals 0
    and the previous states when it does not; nothing else decides the
    update, and the call succeeds on inputs of fitting shapes. *)
Theorem apply_periodic_gate (self : ClockworkBase.t F)
    inputs states time w t00 b d :
  W self = Ok w -> has_shape d d w ->
  has_shape b d inputs -> has_shape b d states ->
  index00 time = Ok t00 ->
  exists update,
    (sw <- dot states w ;;
     pre <- madd inputs sw ;;
     Ok (mmap (activation self) pre)) = Ok update /\
    has_shape b d update /\
    (feqb (fmod t00 (of_int (period self))) (of_int 0) = true ->
     apply self inputs states time None = Ok (update, scalar_add time 1)) /\
    (feqb (fmod t00 (of_int (period self))) (of_int 0) = false ->
     apply self inputs states time None = Ok (states, scalar_add time 1)).
Proof.
  intros HW Hw Hi Hs Ht.
  destruct (apply_unmasked self inputs states time w t00 b d HW Hw Hi Hs Ht)
    as [u (Eu & Hu & Hap)].
  exists u. split; [exact Eu | split; [exact Hu |]].
  split; intros Hg; rewrite Hap; unfold fires; now rewrite Hg.
Qed.

End ClockworkFacts.

Section StepFacts.
Context {F : Type} `{SF : Scalar F}.
Import ClockworkBase.

(** The masked mixture [mask[:, None] * next + (1 - mask[:, None]) * states],
    row by row. *)
Lemma mix_rows (m : vector F) (next states : matrix F) b d :
  length m = b -> has_shape b d next -> has_shape b d states ->
  exists mixed,
    (on <- col_mul m next ;;
     off <- col_mul (scalar_rsub 1 m) states ;;
     madd on off) = Ok mixed /\
    has_shape b d mixed /\
    forall i,
      nth_error (rows mixed) i =
      match nth_error m i, nth_error (rows next) i, nth_error (rows states) i with
      | Some c, Some rn, Some rs =>
          Some (map2 fadd (map (fmul c) rn)
                          (map (fmul (fsub (of_int 1) c)) rs))
      | _, _, _ => None
      end.
Proof.
  intros Hm Hn Hs.
  destruct (col_mul_shape b d m next Hm Hn) as [Eon Hon].
  assert (Hm' : length (scalar_rsub 1 m) = b)
    by now rewrite scalar_rsub_length.
  destruct (col_mul_shape b d _ states Hm' Hs) as [Eoff Hoff].
  destruct (madd_shape _ _ _ _ Hon Hoff) as [Emix Hmix].
  rewrite Eon. simpl. rewrite Eoff. simpl. rewrite Emix.
  eexists; split; [reflexivity | split; [exact Hmix |]].
  intros i. simpl. rewrite !nth_error_map2.
  unfold scalar_rsub. rewrite nth_error_map.
  destruct (nth_error m i) as [c|]; simpl; [|reflexivity].
  destruct (nth_error (rows next) i) as [rn|]; simpl; [|reflexivity].
  now destruct (nth_error (rows states) i).
Qed.

(** One step with or without a mask: it succeeds on fitting shapes, keeps
    the shape of the states and advances the time by one. *)
Lemma apply_total (self : ClockworkBase.t F) inputs states time mask w t00 b d :
  W self = Ok w -> has_shape d d w ->
  has_shape b d inputs -> has_shape b d states ->
  index00 time = Ok t00 ->
  (forall m, mask = Some m -> length m = b) ->
  exists next,
    apply self inputs states time mask = Ok (next, scalar_add time 1) /\
    has_shape b d next.
Proof.
  intros HW Hw Hi Hs Ht Hmask.
  destruct (update_shape self inputs states w b d Hw Hi Hs) as [u [Eu Hu]].
  unfold apply. rewrite Ht. simpl.
  destruct (fires self t00).
  - rewrite HW. simpl. rewrite Eu. simpl.
    destruct mask as [m|]; [|exists u; split; [reflexivity | exact Hu]].
    destruct (mix_rows m u states b d (Hmask m eq_refl) Hu Hs)
      as [mixed (Emix & Hmix & _)].
    rewrite Emix. simpl. exists mixed. split; [reflexivity | exact Hmix].
  - simpl. destruct mask as [m|]; [|exists states; split; [reflexivity | exact Hs]].
    destruct (mix_rows m states states b d (Hmask m eq_refl) Hs Hs)
      as [mixed (Emix & Hmix & _)].
    rewrite Emix. simpl. exists mixed. split; [reflexivity | exact Hmix].
Qed.

Lemma matrix_eq (a b : matrix F) :
  ncols a = ncols b -> rows a = rows b -> a = b.
Proof. destruct a, b; simpl; intros -> ->; reflexivity. Qed.

Lemma allocated (d p : Z) (act : F -> F) (init : nat -> nat -> F) :
  (0 <= d)%Z ->
  exists w,
    (c <- _allocate (ClockworkBase.init d p act) ;; _initialize init c) =
      Ok (mk d p act [PMatrix w;
                      PVector (repeat (of_int 0) (Z.to_nat d));
                      PVector [of_int 0]]) /\
    has_shape (Z.to_nat d) (Z.to_nat d) w.
Proof.
  intros Hd.
  unfold _allocate, ClockworkBase.init, shared_floatx_nans_mat,
    shared_floatx_zeros_vec, nonneg_dims. simpl.
  assert (Hle : (0 <=? d)%Z = true) by now apply Z.leb_le.
  rewrite Hle. simpl.
  eexists; split; [reflexivity|].
  unfold has_shape, fill_matrix, nrows; simpl.
  rewrite !length_map, length_seq, repeat_length.
  repeat split. apply Forall_forall. intros row Hin.
  apply in_map_iff in Hin as [i [<- _]]. now rewrite length_map, length_seq.
Qed.


Lemma index00_row (x : F) :
  index00 (row_matrix [x]) = Ok x.
Proof. reflexivity. Qed.




End StepFacts.

(** ** Binary64 satisfies the laws *)

Module Float64Laws.
Import Floats Float64.

Lemma zero_cases (z : float) :
  (z =? 0)%float = true -> exists s, Prim2SF z = S754_zero s.
Proof.
  rewrite eqb_spec. change (Prim2SF 0) with (S754_zero false).
  destruct (Prim2SF z) as [s|s| |s m e];
    [eauto | destruct s; discriminate | discriminate | destruct s; discriminate].
Qed.

(** Multiplying by one is exact: the product of the mantissas is the
    mantissa shifted by the 52 trailing zeros of the mantissa of 1, and
    rounding shifts it back. *)
Lemma mul_one_l (s : float) : (1 * s)%float = s.
Proof.
  apply Prim2SF_inj. rewrite mul_spec.
  pose proof (Prim2SF_valid s) as Hv.
  change (Prim2SF 1) with (S754_finite false 4503599627370496 (-52)).
  destruct (Prim2SF s) as [sy|sy| |sy my ey]; try reflexivity.
  unfold SF64mul, SFmul. cbn [xorb].
  simpl in Hv. unfold bounded, canonical_mantissa in Hv.
  apply andb_prop in Hv as [Hc Hb]. apply Z.eqb_eq in Hc.
  cbn [Pos.mul].
  unfold binary_round_aux.
  match goal with
  | |- context [shr_fexp prec emax (Z.pos ?m) (-52 + ey) loc_Exact] =>
      set (M := m)
  end.
  assert (HD : Zdigits2 (Z.pos M) = (Z.pos (digits2_pos my) + 52)%Z).
  { unfold M. cbn [Zdigits2 digits2_pos]. rewrite !Pos2Z.inj_succ. lia. }
  assert (Hs1 : shr_fexp prec emax (Z.pos M) (-52 + ey) loc_Exact
                = ({| shr_m := Z.pos my; shr_r := false; shr_s := false |}, ey)).
  { unfold shr_fexp. rewrite HD.
    replace (Z.pos (digits2_pos my) + 52 + (-52 + ey))%Z
      with (Z.pos (digits2_pos my) + ey)%Z by lia.
    rewrite Hc. replace (ey - (-52 + ey))%Z with 52%Z by lia.
    unfold shr, M. cbn [shr_record_of_loc]. f_equal; first [lia | reflexivity]. }
  rewrite Hs1. cbn [shr_m loc_of_shr_record round_nearest_even].
  assert (Hs2 : shr_fexp prec emax (Z.pos my) ey loc_Exact
                = ({| shr_m := Z.pos my; shr_r := false; shr_s := false |}, ey)).
  { unfold shr_fexp. cbn [Zdigits2]. rewrite Hc, Z.sub_diag. reflexivity. }
  rewrite Hs2. cbn [shr_m]. rewrite Hb. reflexivity.
Qed.

Ltac by_spec Ez Es :=
  first [ left; apply Prim2SF_inj; rewrite add_spec, Ez, Es; reflexivity
        | right; rewrite eqb_spec, add_spec, Ez, Es; reflexivity ].

#[export] Instance float_laws : FloatLaws float.
Proof.
  constructor.
  - intros s. apply mul_one_l.
  - reflexivity.
  - reflexivity.
  - intros x Hx. unfold finite_entry, zero_entry in *.
    cbn [feqb fsub fmul of_int float_scalar] in *.
    change (of_Z 0) with 0%float in *.
    rewrite eqb_spec, sub_spec in Hx. rewrite eqb_spec, mul_spec.
    change (Prim2SF 0) with (S754_zero false) in *.
    destruct (Prim2SF x) as [s|s| |s m e];
      [reflexivity | destruct s; discriminate | discriminate | reflexivity].
  - intros z s Hz. unfold zero_entry, same_value in *.
    cbn [feqb fadd of_int float_scalar] in *. change (of_Z 0) with 0%float in *.
    apply zero_cases in Hz as [sz Ez].
    destruct (Prim2SF s) as [ss|ss| |ss m e] eqn:Es;
      [destruct sz, ss | | | ]; by_spec Ez Es.
  - intros x z Hz. unfold zero_entry, same_value in *.
    cbn [feqb fadd of_int float_scalar] in *. change (of_Z 0) with 0%float in *.
    apply zero_cases in Hz as [sz Ez].
    destruct (Prim2SF x) as [sx|sx| |sx m e] eqn:Ex;
      [destruct sz, sx | | | ]; by_spec Ex Ez.
Qed.

End Float64Laws.

(** ** Masked steps *)

Section MaskFacts.
Context {F : Type} {SF : Scalar F} {FL : FloatLaws F}.
Import ClockworkBase.

(** Under a mask entry 0 a row with a finite candidate keeps the value of
    every entry of the previous state. *)
Lemma kept_row (xs ys : list F) :
  length xs = length ys ->
  Forall (fun x => finite_entry x = true) xs ->
  Forall2 same_value
    (map2 fadd (map (fmul (of_int 0)) xs)
               (map (fmul (fsub (of_int 1) (of_int 0))) ys))
    ys.
Proof.
  intros Hlen Hfin. revert ys Hlen.
  induction Hfin as [|x xs Hx _ IH]; intros [|y ys] Hlen; try discriminate;
    [constructor|].
  unfold map2 in *. simpl. constructor.
  - rewrite fsub_one_zero, fmul_one_l.
    apply zero_plus. now apply zero_times_finite.
  - apply IH. simpl in Hlen. lia.
Qed.

(** Under a mask entry 1 a row over a finite previous state takes the
    value of every entry of the candidate. *)
Lemma taken_row (xs ys : list F) :
  length xs = length ys ->
  Forall (fun y => finite_entry y = true) ys ->
  Forall2 same_value
    (map2 fadd (map (fmul (of_int 1)) xs)
               (map (fmul (fsub (of_int 1) (of_int 1))) ys))
    xs.
Proof.
  intros Hlen Hfin. revert xs Hlen.
  induction Hfin as [|y ys Hy _ IH]; intros [|x xs] Hlen; try discriminate;
    [constructor|].
  unfold map2 in *. simpl. constructor.
  - rewrite fsub_one_one, fmul_one_l.
    apply plus_zero. now apply zero_times_finite.
  - apply IH. simpl in Hlen. lia.
Qed.

(** The unmasked and the masked step side by side: both succeed, and the
    masked rows are the mixture of the unmasked rows and the states. *)
Lemma masked_and_unmasked (self : ClockworkBase.t F)
    inputs states time mask w t00 b d :
  W self = Ok w -> has_shape d d w ->
  has_shape b d inputs -> has_shape b d states ->
  index00 time = Ok t00 ->
  length mask = b ->
  exists unmasked masked,
    apply self inputs states time None = Ok (unmasked, scalar_add time 1) /\
    apply self inputs states time (Some mask) = Ok (masked, scalar_add time 1) /\
    has_shape b d unmasked /\ has_shape b d masked /\
    forall i,
      nth_error (rows masked) i =
      match nth_error mask i, nth_error (rows unmasked) i,
            nth_error (rows states) i with
      | Some c, Some rn, Some rs =>
          Some (map2 fadd (map (fmul c) rn)
                          (map (fmul (fsub (of_int 1) c)) rs))
      | _, _, _ => None
      end.
Proof.
  intros HW Hw Hi Hs Ht Hm.
  destruct (apply_unmasked self inputs states time w t00 b d HW Hw Hi Hs Ht)
    as [u (Eu & Hu & Eun)].
  set (cand := if fires self t00 then u else states) in *.
  assert (Hc : has_shape b d cand)
    by (unfold cand; now destruct (fires self t00)).
  destruct (mix_rows mask cand states b d Hm Hc Hs) as [mixed (E & Hsh & Hrow)].
  exists cand, mixed.
  split; [exact Eun|]. split; [|split; [exact Hc | split; [exact Hsh | exact Hrow]]].
  unfold apply. rewrite Ht. simpl. unfold cand in E.
  destruct (fires self t00).
  - rewrite HW. simpl. rewrite Eu. simpl. now rewrite E.
  - simpl. now rewrite E.
Qed.

Lemma row_length (m : matrix F) b d i row :
  has_shape b d m -> nth_error (rows m) i = Some row -> length row = d.
Proof.
  intros Hm Hrow. eapply has_shape_rows; eauto using nth_error_In.
Qed.

(** C8, as the code has it: with a mask, every batch row whose mask entry
    is 0 and whose unmasked next state is finite in every entry keeps the
    value of every entry of its previous state (the sign of a zero
    apart), whether or not the period fires; where all unmasked next
    states are finite and the mask is binary, a row whose value changed
    has mask entry 1. *)
Theorem apply_masked_row_kept (self : ClockworkBase.t F)
    inputs states time mask w t00 b d :
  W self = Ok w -> has_shape d d w ->
  has_shape b d inputs -> has_shape b d states ->
  index00 time = Ok t00 ->
  length mask = b ->
  exists unmasked masked,
    apply self inputs states time None = Ok (unmasked, scalar_add time 1) /\
    apply self inputs states time (Some mask) = Ok (masked, scalar_add time 1) /\
    has_shape b d masked /\
    (forall i cand,
       nth_error mask i = Some (of_int 0) ->
       nth_error (rows unmasked) i = Some cand ->
       Forall (fun x => finite_entry x = true) cand ->
       exists kept prev,
         nth_error (rows masked) i = Some kept /\
         nth_error (rows states) i = Some prev /\
         Forall2 same_value kept prev) /\
    (Forall (fun c => c = of_int 0 \/ c = of_int 1) mask ->
     Forall (Forall (fun x => finite_entry x = true)) (rows unmasked) ->
     forall i kept prev,
       nth_error (rows masked) i = Some kept ->
       nth_error (rows states) i = Some prev ->
       ~ Forall2 same_value kept prev ->
       nth_error mask i = Some (of_int 1)).
Proof.
  intros HW Hw Hi Hs Ht Hm.
  destruct (masked_and_unmasked self inputs states time mask w t00 b d
              HW Hw Hi Hs Ht Hm)
    as [unmasked [masked (Eun & Ema & Hu & Hma & Hrow)]].
  exists unmasked, masked.
  split; [exact Eun|]. split; [exact Ema|]. split; [exact Hma|].
  assert (Hzero : forall i cand,
    nth_error mask i = Some (of_int 0) ->
    nth_error (rows unmasked) i = Some cand ->
    Forall (fun x => finite_entry x = true) cand ->
    exists kept prev,
      nth_error (rows masked) i = Some kept /\
      nth_error (rows states) i = Some prev /\
      Forall2 same_value kept prev).
  { intros i cand Hi0 Hcand Hfin.
    assert (Hlt : (i < b)%nat)
      by (rewrite <- Hm; apply nth_error_Some; congruence).
    destruct (nth_error (rows states) i) as [prev|] eqn:Es;
      [|apply nth_error_None in Es; destruct Hs as (Rs & _);
        unfold nrows in Rs; lia].
    specialize (Hrow i). rewrite Hi0, Hcand, Es in Hrow.
    eexists; exists prev. split; [exact Hrow|]. split; [reflexivity|].
    apply kept_row; [|exact Hfin].
    rewrite (row_length unmasked b d i cand Hu Hcand).
    now rewrite (row_length states b d i prev Hs Es). }
  split; [exact Hzero|].
  intros Hbin Hfin i kept prev Hkept Hprev Hchanged.
  destruct (nth_error mask i) as [c|] eqn:Ec.
  - rewrite Forall_forall in Hbin.
    destruct (Hbin c (nth_error_In _ _ Ec)) as [-> | ->]; [|reflexivity].
    exfalso. apply Hchanged.
    destruct (nth_error (rows unmasked) i) as [cand|] eqn:Ecand.
    + rewrite Forall_forall in Hfin.
      destruct (Hzero i cand Ec Ecand (Hfin cand (nth_error_In _ _ Ecand)))
        as [kept' [prev' (Ek & Ep & Hsame)]].
      congruence.
    + specialize (Hrow i). rewrite Ec, Ecand in Hrow. congruence.
  - specialize (Hrow i). rewrite Ec in Hrow. congruence.
Qed.


End MaskFacts.

(** ** The time counter *)

Section Counter.
Context {F : Type} `{SF : Scalar F}.
Import ClockworkBase.



End Counter.
Section Totality.
Context {F : Type} `{SF : Scalar F}.
Import ClockworkBase.

(** A sequence of fitting steps never fails, whatever the entries are. *)
Lemma iterate_total (self : ClockworkBase.t F) w b d steps :
  W self = Ok w -> has_shape d d w ->
  Forall (fun st => has_shape b d (fst st) /\
                    forall m, snd st = Some m -> length m = b) steps ->
  forall states (t : F),
    has_shape b d states ->
    exists final t',
      iterate self steps states (row_matrix [t]) =
        Ok (final, row_matrix [t']) /\
      has_shape b d final.
Proof.
  intros HW Hw Hsteps.
  induction Hsteps as [|[inputs mask] rest [Hin Hmk] _ IH]; intros states t Hs.
  - simpl. eauto.
  - simpl iterate.
    destruct (apply_total self inputs states (row_matrix [t]) mask
                w t b d HW Hw Hin Hs eq_refl Hmk) as [next [E Hn]].
    rewrite E. simpl bind. simpl fst. simpl snd.
    change (scalar_add (row_matrix [t]) 1)
      with (row_matrix [fadd t (of_int 1)]).
    apply IH. exact Hn.
Qed.

End Totality.

Ltac shape := unfold has_shape; repeat split; repeat constructor.

(** ** Binary64: where the exact reading fails *)

Module Float64Facts.
Import Floats Float64 Float64Laws FloatExample ClockworkBase.


(** From a mantissa of 53 bits on, adding one to the counter is absorbed
    by the rounding: at 2^53 the time stays what it was. *)
Lemma big_plus_one : fadd (of_int big) (of_int 1) = of_int big :> float.
Proof. vm_compute. reflexivity. Qed.


(** C8, refuted on binary64: the weight is 1, the activation the
    identity, every entry is finite and the period fires.  In the second
    row the unmasked next state 2^1023 + 2^1023 overflows to infinity,
    the mask entry 0 turns it into [0 * inf = NaN], and the row comes
    back as NaN instead of its previous state 2^1023. *)
Lemma apply_masked_row_overflow :
  exists next,
    apply (unit_brick 1) (Matrix 1 [[2]; [huge]]%float) (Matrix 1 [[1]; [huge]]%float)
          (Matrix 1 [[0]]%float) (Some [1; 0]%float)
      = Ok (next, Matrix 1 [[1]]%float) /\
    nth_error [1; 0]%float 1 = Some (of_int 0 : float) /\
    nth_error (rows next) 1 <> nth_error (rows (Matrix 1 [[1]; [huge]]%float)) 1.
Proof.
  eexists. split; [vm_compute; reflexivity|].
  split; [vm_compute; reflexivity|].
  intros E.
  apply (f_equal (fun o => match o with
                           | Some (x :: _) => PrimFloat.eqb x x
                           | _ => true
                           end)) in E.
  vm_compute in E. discriminate E.
Qed.




Lemma apply_masked_row_kept_witness :
  exists unmasked masked,
    apply brick inputs states time None = Ok (unmasked, scalar_add time 1) /\
    apply brick inputs states time (Some mask)
      = Ok (masked, scalar_add time 1) /\
    has_shape 3 2 masked /\
    (forall i cand,
       nth_error mask i = Some (of_int 0) ->
       nth_error (rows unmasked) i = Some cand ->
       Forall (fun x => finite_entry x = true) cand ->
       exists kept prev,
         nth_error (rows masked) i = Some kept /\
         nth_error (rows states) i = Some prev /\
         Forall2 same_value kept prev) /\
    (Forall (fun c => c = of_int 0 \/ c = of_int 1) mask ->
     Forall (Forall (fun x => finite_entry x = true)) (rows unmasked) ->
     forall i kept prev,
       nth_error (rows masked) i = Some kept ->
       nth_error (rows states) i = Some prev ->
       ~ Forall2 same_value kept prev ->
       nth_error mask i = Some (of_int 1)).
Proof.
  exact (apply_masked_row_kept brick inputs states time mask FloatExample.W 4%float 3 2
           eq_refl ltac:(shape) ltac:(shape) ltac:(shape) eq_refl eq_refl).
Defined.



End Float64Facts.
(** ** The lookup table *)

Section LookupFacts.
Context {F : Type} `{SF : Scalar F}.

Lemma mapM_ok {A B : Type} (f : A -> result B) (g : A -> B) xs :
  Forall (fun x => f x = Ok (g x)) xs -> mapM f xs = Ok (map g xs).
Proof.
  induction 1 as [|x xs Hx _ IH]; simpl; [reflexivity|].
  now rewrite Hx, IH.
Qed.

Lemma map_seq_offset {A : Type} (f : nat -> A) a n :
  map f (seq a n) = map (fun q => f (a + q)%nat) (seq 0 n).
Proof.
  revert f a; induction n as [|n IH]; intros f a; simpl; [reflexivity|].
  rewrite Nat.add_0_r. f_equal.
  rewrite (IH f (S a)), (IH (fun q => f (a + q)%nat) 1%nat).
  apply map_ext. intros q. f_equal. lia.
Qed.

Lemma map_nth_seq {A : Type} (l : list A) (z : A) :
  map (fun i => nth i l z) (seq 0 (length l)) = l.
Proof.
  induction l as [|x l IH]; simpl; [reflexivity|]. f_equal.
  rewrite map_seq_offset. simpl. exact IH.
Qed.

Lemma map2_as_seq (f : F -> F -> F) (xs ys : list F) (z : F) :
  length xs = length ys ->
  map (fun p => f (nth p xs z) (nth p ys z)) (seq 0 (length xs)) = map2 f xs ys.
Proof.
  revert ys; induction xs as [|x xs IH]; intros [|y ys] Hlen;
    try discriminate; [reflexivity|].
  unfold map2 in *. simpl. f_equal.
  rewrite map_seq_offset. simpl. apply IH. simpl in Hlen. lia.
Qed.

(** Adding a vector along the last axis of row-major data adds it to
    every row. *)
Lemma broadcast_rows (v : vector F) (rs : list (list F)) :
  Forall (fun r => length r = length v) rs ->
  map (fun p => fadd (nth p (concat rs) (of_int 0))
                     (nth (p mod length v) v (of_int 0)))
      (seq 0 (length (concat rs)))
  = concat (map (fun r => map2 fadd r v) rs).
Proof.
  induction 1 as [|r rs Hr _ IH]; simpl; [reflexivity|].
  rewrite length_app, seq_app, map_app. f_equal.
  - rewrite <- (map2_as_seq fadd r v (of_int 0) Hr).
    apply map_ext_in. intros p Hp. apply in_seq in Hp.
    rewrite app_nth1 by lia. rewrite Nat.mod_small by lia. reflexivity.
  - rewrite map_seq_offset. simpl. rewrite <- IH.
    apply map_ext. intros q.
    rewrite app_nth2_plus. f_equal. f_equal.
    rewrite <- Hr. rewrite <- (Nat.Div0.mod_add q 1 (length r)).
    f_equal. lia.
Qed.

Lemma size_of_app sh d : size_of (sh ++ [d]) = (size_of sh * d)%nat.
Proof.
  induction sh as [|n sh IH]; simpl; [lia|]. rewrite IH. lia.
Qed.

Lemma length_concat_rows (rs : list (list F)) d :
  Forall (fun r => length r = d) rs -> length (concat rs) = (length rs * d)%nat.
Proof.
  induction 1 as [|r rs Hr _ IH]; simpl; [reflexivity|].
  rewrite length_app, IH, Hr. reflexivity.
Qed.

Lemma take_row_in_range (w : matrix F) len d i :
  has_shape len d w -> (0 <= i < Z.of_nat len)%Z ->
  take_row w i = Ok (nth (Z.to_nat i) (rows w) []) /\
  length (nth (Z.to_nat i) (rows w) []) = d.
Proof.
  intros (Rw & _ & Fw) Hi. unfold take_row. rewrite Rw.
  assert (E1 : (i <? 0)%Z = false) by (apply Z.ltb_ge; lia).
  assert (E2 : (0 <=? i)%Z = true) by (apply Z.leb_le; lia).
  assert (E3 : (i <? Z.of_nat len)%Z = true) by (apply Z.ltb_lt; lia).
  rewrite E1, E2, E3. simpl.
  unfold nrows in Rw.
  assert (Hlt : (Z.to_nat i < length (rows w))%nat) by lia.
  destruct (nth_error (rows w) (Z.to_nat i)) as [row|] eqn:E;
    [|apply nth_error_None in E; lia].
  rewrite (nth_error_nth _ _ _ E). split; [reflexivity|].
  rewrite Forall_forall in Fw. eauto using nth_error_In.
Qed.

Lemma nonneg_dims_of_nat (sh : list nat) (d : nat) :
  nonneg_dims (map Z.of_nat sh ++ [Z.of_nat d]) = Ok tt.
Proof.
  unfold nonneg_dims.
  replace (forallb _ _) with true; [reflexivity|].
  symmetry. apply forallb_forall. intros x Hx. apply Z.leb_le.
  apply in_app_iff in Hx as [Hx | [<- | []]]; [|lia].
  apply in_map_iff in Hx as [n [<- _]]. lia.
Qed.

(** A table that was allocated and initialised holds a weight matrix of
    shape (length, dim) and a bias of length dim. *)
Lemma lookup_allocated (len d : Z) (weights_init : nat -> nat -> F)
    (biases_init : nat -> F) :
  (0 <= len)%Z -> (0 <= d)%Z ->
  exists w bias,
    (c <- LookupTable._allocate (LookupTable.init len d) ;;
     LookupTable._initialize weights_init biases_init c)
      = Ok (LookupTable.mk len d [PMatrix w; PVector bias]) /\
    has_shape (Z.to_nat len) (Z.to_nat d) w /\
    length bias = Z.to_nat d.
Proof.
  intros Hlen Hd.
  unfold LookupTable._allocate, LookupTable.init, shared_floatx_nans_mat,
    shared_floatx_nans_vec, nonneg_dims. simpl.
  assert (E1 : (0 <=? len)%Z = true) by now apply Z.leb_le.
  assert (E2 : (0 <=? d)%Z = true) by now apply Z.leb_le.
  rewrite E1, E2. simpl.
  eexists; eexists. split; [reflexivity|].
  unfold has_shape, fill_matrix, fill_vector, nrows; simpl.
  rewrite !length_map, !length_seq, !repeat_length.
  repeat split. apply Forall_forall. intros row Hin.
  apply in_map_iff in Hin as [i [<- _]]. now rewrite length_map, length_seq.
Qed.

(** C5: for an index tensor of k dimensions with entries in [0, length),
    the lookup succeeds and returns the rows of W selected by the
    flattened indices, each with the bias b added, under the shape of the
    indices followed by dim: a tensor of k+1 dimensions. *)
Theorem lookup_apply (self : LookupTable.t F) (indices : tensor Z)
    (w : matrix F) (bias : vector F) (len d : nat) :
  LookupTable.W self = Ok w -> LookupTable.b self = Ok bias ->
  LookupTable.dim self = Z.of_nat d ->
  has_shape len d w -> length bias = d ->
  tensor_wf indices ->
  Forall (fun i => (0 <= i < Z.of_nat len)%Z) (data indices) ->
  exists out,
    LookupTable.apply self indices = Ok out /\
    shape out = shape indices ++ [d] /\
    ndim out = (ndim indices + 1)%nat /\
    tensor_wf out /\
    data out = concat (map (fun i => map2 fadd (nth (Z.to_nat i) (rows w) []) bias)
                           (data indices)).
Proof.
  intros HW Hb Hdim Hw Hbias Hwf Hrange.
  set (taken := map (fun i => nth (Z.to_nat i) (rows w) []) (data indices)).
  assert (Htaken : Forall (fun r => length r = length bias) taken).
  { apply Forall_forall. intros r Hr. apply in_map_iff in Hr as [i [<- Hi]].
    rewrite Forall_forall in Hrange.
    rewrite Hbias. apply (take_row_in_range w len d i Hw (Hrange i Hi)). }
  assert (Etake : take_rows w (flatten indices) = Ok (Matrix (ncols w) taken)).
  { unfold take_rows, flatten.
    rewrite (mapM_ok (take_row w) (fun i => nth (Z.to_nat i) (rows w) [])).
    - reflexivity.
    - eapply Forall_impl; [|exact Hrange]. intros i Hi.
      apply (take_row_in_range w len d i Hw Hi). }
  assert (Eshape : LookupTable.output_shape self indices
                   = map Z.of_nat (shape indices) ++ [Z.of_nat d]).
  { unfold LookupTable.output_shape, ndim. rewrite Hdim. f_equal.
    rewrite <- (map_map (fun i => nth i (shape indices) 0%nat) Z.of_nat).
    now rewrite map_nth_seq. }
  assert (Eback : map Z.to_nat (map Z.of_nat (shape indices) ++ [Z.of_nat d])
                  = shape indices ++ [d]).
  { rewrite map_app, map_map. simpl. rewrite Nat2Z.id. f_equal.
    rewrite <- (map_id (shape indices)) at 2. apply map_ext.
    intros n. apply Nat2Z.id. }
  assert (Elen : length (concat taken) = size_of (shape indices ++ [d])).
  { rewrite (length_concat_rows taken (length bias) Htaken).
    unfold taken. rewrite length_map, size_of_app, Hbias.
    unfold tensor_wf in Hwf. now rewrite Hwf. }
  unfold LookupTable.apply. rewrite HW. simpl. rewrite Hb. simpl.
  rewrite Etake. simpl.
  unfold reshape. rewrite Eshape, nonneg_dims_of_nat. simpl bind.
  rewrite Eback.
  assert (Esize : (size_of (shape indices ++ [d])
                     =? nrows (Matrix (ncols w) taken) * ncols w)%nat
                  = true).
  { apply Nat.eqb_eq. unfold nrows. simpl.
    destruct Hw as (_ & -> & _). rewrite <- Elen.
    rewrite (length_concat_rows taken (length bias) Htaken). now rewrite Hbias. }
  rewrite Esize. simpl bind.
  unfold add_last_axis, ndim. simpl shape. simpl data.
  rewrite last_last, Hbias, Nat.eqb_refl, length_app. simpl length.
  replace (length (shape indices) + 1 =? 0)%nat with false
    by (symmetry; apply Nat.eqb_neq; lia).
  simpl. eexists. split; [reflexivity|]. simpl.
  split; [reflexivity|]. split; [apply length_app|].
  rewrite <- Hbias. rewrite (broadcast_rows bias taken Htaken).
  unfold taken. rewrite map_map. split; [|reflexivity].
  unfold tensor_wf. simpl. rewrite Hbias, <- Elen.
  rewrite <- map_map with (g := fun r => map2 fadd r bias).
  fold taken.
  rewrite (length_concat_rows taken (length bias) Htaken).
  rewrite <- (length_map (fun r => map2 fadd r bias) taken).
  apply length_concat_rows.
  apply Forall_forall. intros r Hr. apply in_map_iff in Hr as [r0 [<- Hr0]].
  rewrite map2_length. rewrite Forall_forall in Htaken.
  rewrite (Htaken r0 Hr0). lia.
Qed.

End LookupFacts.

(** ** The command line parser *)

Section ParserFacts.
Import argparse.
Variable parse_tokens : ArgumentParser -> list string -> result namespace.

(** The parser that the flag set builds when every flag is registered
    through [add_argument]. *)
Lemma run_as_specified :
  parser.run parser.statements_as_specified (new "RNN_experiment") =
  Ok (mkParser "RNN_experiment" (map snd parser.statements)).
Proof. reflexivity. Qed.

(** The third statement of [parse_args] raises whatever the parser held
    before it. *)
Lemma run_statements_raises :
  parser.run parser.statements (new "RNN_experiment") =
  Raise (AttributeError "ArgumentParser" "add_argupent").
Proof. reflexivity. Qed.

(** C2: on the empty command line [parse_args] raises [AttributeError] at
    its misspelt [add_argupent] call instead of returning the defaults;
    with that call spelt [add_argument] the same flag set returns them:
    mini_batch_size 5, time_length 200, state_dim 1000, algorithm adam of
    rms_prop, adam, sgd, rnn_type simple of lstm, simple, and dataset
    penntree of wikipedia, penntree. *)
Theorem parse_args_empty_command_line :
  parser.parse_args parse_tokens [] =
    Raise (AttributeError "ArgumentParser" "add_argupent") /\
  exists p ns,
    parser.run parser.statements_as_specified (new "RNN_experiment") = Ok p /\
    parser.parse_args_as_specified parse_tokens [] = Ok ns /\
    lookup "mini_batch_size" ns = Some (VInt 5) /\
    lookup "time_length" ns = Some (VInt 200) /\
    lookup "state_dim" ns = Some (VInt 1000) /\
    lookup "algorithm" ns = Some (VStr "adam") /\
    lookup "rnn_type" ns = Some (VStr "simple") /\
    lookup "dataset" ns = Some (VStr "penntree") /\
    In (parser.choice "--algorithm" ["rms_prop"; "adam"; "sgd"] "adam")
       (arguments p) /\
    In (parser.choice "--rnn_type" ["lstm"; "simple"] "simple") (arguments p) /\
    In (parser.choice "--dataset" ["wikipedia"; "penntree"] "penntree")
       (arguments p).
Proof.
  split; [reflexivity|].
  eexists; eexists. split; [exact run_as_specified|].
  split; [reflexivity|].
  repeat (split; [reflexivity|]).
  simpl. repeat split; auto 20.
Qed.

(** C3: for every command line and whatever argparse would make of it,
    [parse_args] ends in an error that is not the framework's: the
    [AttributeError] of the interpreter at the repository's own
    statement. *)
Theorem parse_args_raises_own_error (argv : list string) :
  exists e,
    parser.parse_args parse_tokens argv = Raise e /\
    from_framework e = false /\
    e = AttributeError "ArgumentParser" "add_argupent".
Proof.
  eexists. split; [|split; [|reflexivity]]; reflexivity.
Qed.

End ParserFacts.

(** ** The model graph *)

Section GraphFacts.
Context {F : Type} `{SF : Scalar F}.
Variable tanh : F -> F.

Lemma range_length n : length (range n) = Z.to_nat n.
Proof. unfold range. now rewrite length_map, length_seq. Qed.

Lemma range_nth n i :
  (0 <= i < n)%Z -> nth_error (range n) (Z.to_nat i) = Some i.
Proof.
  intros Hi. unfold range. rewrite nth_error_map.
  rewrite nth_error_seq.
  destruct (Nat.ltb_spec (Z.to_nat i) (Z.to_nat n)) as [_|Hge]; [|lia].
  simpl. f_equal. lia.
Qed.

Lemma in_range n d : In d (range n) -> (0 <= d < n)%Z.
Proof.
  unfold range. intros Hin. apply in_map_iff in Hin as [k [<- Hk]].
  apply in_seq in Hk. lia.
Qed.

Lemma range_pos n :
  (1 <= n)%Z -> range n = 0%Z :: map Z.of_nat (seq 1 (Z.to_nat n - 1)).
Proof.
  intros Hn. unfold range.
  replace (Z.to_nat n) with (S (Z.to_nat n - 1)) at 1 by lia. reflexivity.
Qed.

Lemma flat_map_nil {A B : Type} (f : A -> list B) xs :
  (forall x, In x xs -> f x = []) -> flat_map f xs = [].
Proof.
  induction xs as [|x xs IH]; simpl; intros Hf; [reflexivity|].
  rewrite (Hf x) by now left. simpl. apply IH. intros y Hy. apply Hf. now right.
Qed.

(** Without skip connections the fork has the single output [inputs]. *)
Lemma output_names_plain layers :
  (1 <= layers)%Z -> output_names layers false = ["inputs"].
Proof.
  intros Hl. unfold output_names. rewrite (range_pos layers Hl). simpl.
  f_equal. apply flat_map_nil.
  intros d Hd. apply in_map_iff in Hd as [k [<- Hk]]. apply in_seq in Hk.
  replace (Z.of_nat k =? 0)%Z with false by (symmetry; apply Z.eqb_neq; lia).
  reflexivity.
Qed.

(** With skip connections it has one output per layer. *)
Lemma output_names_skip layers :
  length (output_names layers true) = Z.to_nat layers.
Proof.
  unfold output_names. rewrite <- (range_length layers).
  induction (range layers) as [|d ds IH]; simpl; [reflexivity|].
  rewrite Bool.orb_true_r. simpl. f_equal. exact IH.
Qed.

Lemma filter_even_seq (a n : nat) :
  filter Nat.even (seq (2 * a) (2 * n)) = map (fun d => (2 * d)%nat) (seq a n).
Proof.
  revert a; induction n as [|n IH]; intros a; [reflexivity|].
  replace (2 * S n)%nat with (S (S (2 * n))) by lia.
  cbn [seq filter map].
  rewrite Nat.even_even.
  replace (S (2 * a)) with (2 * a + 1)%nat by lia. rewrite Nat.even_odd.
  replace (S (2 * a + 1)) with (2 * S a)%nat by lia.
  now rewrite IH.
Qed.

Lemma every_second_map {A : Type} (f : nat -> A) (l : list nat) :
  map snd (filter (fun ix => Nat.even (fst ix)) (map (fun i => (i, f i)) l))
  = map f (filter Nat.even l).
Proof.
  induction l as [|i l IH]; simpl; [reflexivity|].
  destruct (Nat.even i); simpl; now rewrite IH.
Qed.

Lemma combine_seq_map {A : Type} (f : nat -> A) (a m : nat) :
  combine (seq a m) (map f (seq a m)) = map (fun i => (i, f i)) (seq a m).
Proof.
  revert a; induction m as [|m IH]; intros a; simpl; [reflexivity|].
  now rewrite IH.
Qed.

(** [xs[::2]] on a list of 2n elements keeps the elements at the even
    positions. *)
Lemma every_second_even {A : Type} (f : nat -> A) (n : nat) :
  every_second (map f (seq 0 (2 * n))) = map (fun d => f (2 * d)%nat) (seq 0 n).
Proof.
  unfold every_second. rewrite length_map, length_seq.
  rewrite combine_seq_map, every_second_map.
  change 0%nat with (2 * 0)%nat at 1. rewrite filter_even_seq.
  now rewrite map_map.
Qed.

Lemma combine_map_map {A B C : Type} (f : A -> B) (g : A -> C) (l : list A) :
  combine (map f l) (map g l) = map (fun x => (f x, g x)) l.
Proof.
  induction l as [|x l IH]; simpl; [reflexivity|]. now rewrite IH.
Qed.


Lemma lookup_allocates (len d : Z) :
  (0 <= len)%Z -> (0 <= d)%Z ->
  exists t : LookupTable.t F,
    LookupTable._allocate (LookupTable.init len d) = Ok t.
Proof.
  intros Hlen Hd.
  unfold LookupTable._allocate, LookupTable.init, shared_floatx_nans_mat,
    shared_floatx_nans_vec, nonneg_dims. simpl.
  rewrite (proj2 (Z.leb_le 0 len) Hlen), (proj2 (Z.leb_le 0 d) Hd).
  simpl. eauto.
Qed.

Lemma init_state_ok (mini_batch_size state_dim d : Z) :
  (0 <= mini_batch_size)%Z -> (0 <= state_dim)%Z ->
  init_state (F := F) (VInt mini_batch_size) state_dim d =
    Ok (Shared ("state0_" ++ str d)%string mini_batch_size state_dim).
Proof.
  intros Hm Hs. unfold init_state, numpy_dim.
  rewrite (proj2 (Z.leb_le 0 _) Hm), (proj2 (Z.leb_le 0 _) Hs). reflexivity.
Qed.

Lemma outputs_many (b : @brick F) m a n :
  (2 <= n)%nat -> outputs b m a n = Many (map (BrickOut b m a) (seq 0 n)).
Proof. intros Hn. destruct n as [|[|n]]; try lia; reflexivity. Qed.

(** Lines 74-98: the inputs of the layers are named and every layer adds
    its keyword arguments and its initial state, for at least one layer
    (two with skip connections) and sizes that numpy accepts. *)
Lemma layer_turns (layers state_dim mini_batch_size : Z) (skip : bool)
    (fork : @brick F) :
  (0 <= state_dim)%Z -> (0 <= mini_batch_size)%Z ->
  (1 <= layers)%Z -> (skip = true -> 2 <= layers)%Z ->
  let pre_rnn := fun d : Z =>
    if skip
    then Named ("pre_rnn_" ++ str d)%string
               (BrickOut fork "apply" [("", Var "features")] (Z.to_nat d))
    else Named "pre_rnn" (BrickOut fork "apply" [("", Var "features")] 0) in
  let state0 := fun d : Z =>
    Shared ("state0_" ++ str d)%string mini_batch_size state_dim in
  exists named,
    name_pre_rnn skip
      (outputs fork "apply" [("", Var "features")]
               (length (output_names layers skip))) = Ok named /\
    mapM (layer_kwargs skip named (VInt mini_batch_size) state_dim)
         (range layers) =
      Ok (map (fun d : Z =>
                 ((if skip || (d =? 0)%Z
                   then [(("inputs" ++ suffix_of d)%string, pre_rnn d)]
                   else [])
                  ++ [(("states" ++ suffix_of d)%string, state0 d)],
                  state0 d))
              (range layers)).
Proof.
  intros Hs Hm Hlayers Hskip pre_rnn state0. destruct skip.
  - specialize (Hskip eq_refl). rewrite output_names_skip.
    rewrite outputs_many by lia. unfold name_pre_rnn.
    rewrite length_map, length_seq, combine_seq_map, map_map. cbn [fst snd].
    eexists; split; [reflexivity|].
    apply mapM_ok. apply Forall_forall. intros d Hd.
    apply in_range in Hd. unfold layer_kwargs.
    rewrite nth_error_map, nth_error_seq.
    destruct (Nat.ltb_spec (Z.to_nat d) (Z.to_nat layers)) as [_|Hge]; [|lia].
    cbn [option_map bind Nat.add].
    rewrite (init_state_ok mini_batch_size state_dim d Hm Hs). cbn [bind orb].
    unfold pre_rnn, state0. rewrite Z2Nat.id by lia. reflexivity.
  - rewrite (output_names_plain layers Hlayers).
    unfold outputs, name_pre_rnn. cbn [length].
    eexists; split; [reflexivity|].
    apply mapM_ok. apply Forall_forall. intros d _.
    unfold layer_kwargs.
    rewrite (init_state_ok mini_batch_size state_dim d Hm Hs).
    cbn [orb]. destruct (Z.eqb_spec d 0) as [-> | _]; reflexivity.
Qed.

(** [build_model_cw] up to its return statement, on a namespace that
    carries the five attributes it reads as integers, for sizes that are
    not negative and at least one layer (two with skip connections): the
    whole graph that it wires. *)
Lemma build_graph (vocab_size : Z) (args : namespace)
    (context state_dim layers mini_batch_size : Z) (skip : pyval) :
  getattr args "context" = Ok (VInt context) ->
  getattr args "state_dim" = Ok (VInt state_dim) ->
  getattr args "layers" = Ok (VInt layers) ->
  getattr args "skip_connections" = Ok skip ->
  getattr args "mini_batch_size" = Ok (VInt mini_batch_size) ->
  (0 <= vocab_size)%Z -> (0 <= state_dim)%Z -> (0 <= mini_batch_size)%Z ->
  (1 <= layers)%Z ->
  (truthy skip = true -> 2 <= layers)%Z ->
  let x :=
    Var "features" in
  let fork :=
    Fork (output_names layers (truthy skip)) (VInt mini_batch_size)
                (output_dims layers state_dim (truthy skip))
                (LookupTable.init vocab_size state_dim) in
  let pre_rnn :=
    fun d : Z =>
        if truthy skip
        then Named ("pre_rnn_" ++ str d)%string
                   (BrickOut fork "apply" [("", x)] (Z.to_nat d))
        else Named "pre_rnn" (BrickOut fork "apply" [("", x)] 0) in
  let state0 :=
    fun d : Z =>
        Shared ("state0_" ++ str d)%string mini_batch_size state_dim in
  let kwargs :=
    flat_map
        (fun d : Z =>
           (if truthy skip || (d =? 0)%Z
            then [(("inputs" ++ suffix_of d)%string, pre_rnn d)] else [])
           ++ [(("states" ++ suffix_of d)%string, state0 d)])
        (range layers) in
  let rnn :=
    RecurrentStack (transitions tanh state_dim layers) (truthy skip) in
  let states :=
    fun d : nat => BrickOut rnn "apply" kwargs (2 * d) in
  let h :=
    Named "hidden_state"
        (if (layers >? 1)%Z
         then Concatenate (map states (seq 0 (Z.to_nat layers))) 2
         else states 0%nat) in
  let updates :=
    map (fun d : nat =>
             (state0 (Z.of_nat d),
              LastStep (if (layers >? 1)%Z then states d else h)))
          (seq 0 (Z.to_nat layers)) in
  let presoft :=
    Named "presoft"
        (BrickOut (Linear "output_layer" (layers * state_dim) vocab_size)
                  "apply" [("", SliceFrom h context)] 0) in
  let nats :=
    BrickOut Softmax "categorical_cross_entropy"
        [("", Flatten (SliceFrom (Var "targets") context));
         ("", Reshape presoft
                [Mul (ShapeOf presoft 1) (ShapeOf presoft 0);
                 ShapeOf presoft 2])] 0 in
  let cross_entropy :=
    Named "cross_entropy" (Div nats (Log (Const 2))) in
  let cost :=
    Named "regularized_cost" (Add cross_entropy (Log (Const 1))) in
  build tanh vocab_size args
    = Ok (Locals rnn h presoft cross_entropy cost updates).
Proof.
  intros Hc Hsd Hl Hsk Hmb Hv Hs Hm Hlayers Hskip. cbv zeta.
  unfold build. rewrite Hc, Hsd, Hl, Hsk, Hmb. cbn [bind as_int].
  replace (layers <? 1)%Z with false by (symmetry; apply Z.ltb_ge; lia).
  cbn [numpy_dim slice_bound]. rewrite (proj2 (Z.leb_le 0 state_dim) Hs).
  cbn [bind].
  destruct (lookup_allocates vocab_size state_dim Hv Hs) as [tbl ->].
  cbn [bind].
  destruct (layer_turns layers state_dim mini_batch_size (truthy skip)
              (Fork (output_names layers (truthy skip)) (VInt mini_batch_size)
                    (output_dims layers state_dim (truthy skip))
                    (LookupTable.init vocab_size state_dim))
              Hs Hm Hlayers Hskip) as [named [E1 E2]].
  rewrite E1. cbn [bind]. rewrite E2.
  cbn [bind]. rewrite !map_map. cbn [fst snd].
  rewrite <- flat_map_concat_map, every_second_even.
  destruct (layers >? 1)%Z eqn:Egt.
  - cbn [bind fst snd]. do 2 f_equal.
    unfold range. rewrite !map_map. apply combine_map_map.
  - assert (layers = 1%Z)
      by (rewrite Z.gtb_ltb in Egt; apply Z.ltb_ge in Egt; lia).
    subst layers. reflexivity.
Qed.
Lemma transitions_nth (state_dim layers : Z) (i : nat) :
  (i < Z.to_nat layers)%nat ->
  nth_error (transitions tanh state_dim layers) i =
  Some (ClockworkBase.init state_dim (2 ^ (layers - Z.of_nat i - 1)) tanh).
Proof.
  intros Hi. unfold transitions.
  rewrite nth_error_map.
  replace i with (Z.to_nat (Z.of_nat i)) at 1 by apply Nat2Z.id.
  rewrite range_nth by lia. reflexivity.
Qed.

Lemma transitions_period (state_dim layers : Z) (i : nat) t :
  nth_error (transitions tanh state_dim layers) i = Some t ->
  (i < Z.to_nat layers)%nat /\
  ClockworkBase.period t = (2 ^ (layers - Z.of_nat i - 1))%Z.
Proof.
  intros E.
  assert (Hi : (i < Z.to_nat layers)%nat).
  { rewrite <- (range_length layers).
    rewrite <- (length_map
      (fun i => ClockworkBase.init state_dim (2 ^ (layers - i - 1))%Z tanh)).
    apply nth_error_Some. unfold transitions in E. congruence. }
  split; [exact Hi|].
  rewrite (transitions_nth state_dim layers i Hi) in E.
  inversion E. reflexivity.
Qed.

(** C4: with [layers = L], sizes of at least one and integer attributes,
    [build_model_cw] builds a stack of exactly L clockwork transitions,
    transition i with period 2^(L - i - 1): each period is twice the next
    one and no two layers share a period. *)
Theorem transitions_periods (vocab_size : Z) (args : namespace)
    (context state_dim L mini_batch_size : Z) (skip : pyval) :
  getattr args "context" = Ok (VInt context) ->
  getattr args "state_dim" = Ok (VInt state_dim) ->
  getattr args "layers" = Ok (VInt L) ->
  getattr args "skip_connections" = Ok skip ->
  getattr args "mini_batch_size" = Ok (VInt mini_batch_size) ->
  (1 <= vocab_size)%Z -> (1 <= state_dim)%Z -> (1 <= mini_batch_size)%Z ->
  (1 <= L)%Z ->
  (truthy skip = true -> 2 <= L)%Z ->
  exists l,
    build tanh vocab_size args = Ok l /\
    l_rnn l = RecurrentStack (transitions tanh state_dim L) (truthy skip) /\
    length (transitions tanh state_dim L) = Z.to_nat L /\
    (forall i, (0 <= i < L)%Z ->
       nth_error (transitions tanh state_dim L) (Z.to_nat i) =
       Some (ClockworkBase.init state_dim (2 ^ (L - i - 1)) tanh)) /\
    (forall i t t',
       nth_error (transitions tanh state_dim L) i = Some t ->
       nth_error (transitions tanh state_dim L) (S i) = Some t' ->
       ClockworkBase.period t = (2 * ClockworkBase.period t')%Z) /\
    (forall i j t t',
       nth_error (transitions tanh state_dim L) i = Some t ->
       nth_error (transitions tanh state_dim L) j = Some t' ->
       i <> j -> ClockworkBase.period t <> ClockworkBase.period t').
Proof.
  intros Hc Hsd Hl Hsk Hmb Hv Hs Hm Hlayers Hskip.
  pose proof (build_graph vocab_size args context state_dim L mini_batch_size
                skip Hc Hsd Hl Hsk Hmb ltac:(lia) ltac:(lia) ltac:(lia)
                Hlayers Hskip) as Eb.
  cbv zeta in Eb. eexists. split; [exact Eb|]. split; [reflexivity|].
  split; [|split; [|split]].
  - unfold transitions. now rewrite length_map, range_length.
  - intros i Hi. rewrite (transitions_nth state_dim L (Z.to_nat i)) by lia.
    do 3 f_equal. lia.
  - intros i t t' Et Et'.
    apply transitions_period in Et as [Hi ->].
    apply transitions_period in Et' as [Hi' ->].
    rewrite <- Z.pow_succ_r by lia. f_equal. lia.
  - intros i j t t' Et Et' Hij.
    apply transitions_period in Et as [Hi ->].
    apply transitions_period in Et' as [Hj ->].
    intros Epow. apply Z.pow_inj_r in Epow; lia.
Qed.

(** C6: for sizes of at least one and integer attributes, the returned
    cross-entropy is the softmax categorical cross-entropy of
    [y[context:, :].flatten()] against [presoft] reshaped to
    (batch * time, feat), divided by log 2, where [presoft] is the output
    layer, of output dimension [vocab_size], applied to
    [h[context:, :, :]], and [h] is the hidden state: the states that the
    recurrent stack returns for the named outputs of the fork and the
    initial states, concatenated along the last axis when there are two
    layers or more. *)
Theorem cross_entropy_graph (vocab_size : Z) (args : namespace)
    (context state_dim layers mini_batch_size : Z) (skip : pyval) :
  getattr args "context" = Ok (VInt context) ->
  getattr args "state_dim" = Ok (VInt state_dim) ->
  getattr args "layers" = Ok (VInt layers) ->
  getattr args "skip_connections" = Ok skip ->
  getattr args "mini_batch_size" = Ok (VInt mini_batch_size) ->
  (1 <= vocab_size)%Z -> (1 <= state_dim)%Z -> (1 <= mini_batch_size)%Z ->
  (1 <= layers)%Z ->
  (truthy skip = true -> 2 <= layers)%Z ->
  let x :=
    Var "features" in
  let fork :=
    Fork (output_names layers (truthy skip)) (VInt mini_batch_size)
                (output_dims layers state_dim (truthy skip))
                (LookupTable.init vocab_size state_dim) in
  let pre_rnn :=
    fun d : Z =>
        if truthy skip
        then Named ("pre_rnn_" ++ str d)%string
                   (BrickOut fork "apply" [("", x)] (Z.to_nat d))
        else Named "pre_rnn" (BrickOut fork "apply" [("", x)] 0) in
  let state0 :=
    fun d : Z =>
        Shared ("state0_" ++ str d)%string mini_batch_size state_dim in
  let kwargs :=
    flat_map
        (fun d : Z =>
           (if truthy skip || (d =? 0)%Z
            then [(("inputs" ++ suffix_of d)%string, pre_rnn d)] else [])
           ++ [(("states" ++ suffix_of d)%string, state0 d)])
        (range layers) in
  let rnn :=
    RecurrentStack (transitions tanh state_dim layers) (truthy skip) in
  let states :=
    fun d : nat => BrickOut rnn "apply" kwargs (2 * d) in
  let h :=
    Named "hidden_state"
        (if (layers >? 1)%Z
         then Concatenate (map states (seq 0 (Z.to_nat layers))) 2
         else states 0%nat) in
  let updates :=
    map (fun d : nat =>
             (state0 (Z.of_nat d),
              LastStep (if (layers >? 1)%Z then states d else h)))
          (seq 0 (Z.to_nat layers)) in
  let presoft :=
    Named "presoft"
        (BrickOut (Linear "output_layer" (layers * state_dim) vocab_size)
                  "apply" [("", SliceFrom h context)] 0) in
  let nats :=
    BrickOut Softmax "categorical_cross_entropy"
        [("", Flatten (SliceFrom (Var "targets") context));
         ("", Reshape presoft
                [Mul (ShapeOf presoft 1) (ShapeOf presoft 0);
                 ShapeOf presoft 2])] 0 in
  let cross_entropy :=
    Named "cross_entropy" (Div nats (Log (Const 2))) in
  let cost :=
    Named "regularized_cost" (Add cross_entropy (Log (Const 1))) in
  build_model_cw tanh vocab_size args = Ok (cost, cross_entropy, updates) /\
  (forall rho, eval rho cross_entropy = (rho nats / ln 2)%R).
Proof.
  intros Hc Hsd Hl Hsk Hmb Hv Hs Hm Hlayers Hskip.
  pose proof (build_graph vocab_size args context state_dim layers
                mini_batch_size skip Hc Hsd Hl Hsk Hmb ltac:(lia) ltac:(lia)
                ltac:(lia) Hlayers Hskip) as Eb.
  cbv zeta in *. unfold build_model_cw. rewrite Eb. cbn [bind].
  split; [reflexivity|].
  intros rho. reflexivity.
Qed.

(** C7: for sizes of at least one and integer attributes, the returned
    cost, named regularized_cost, is the cross-entropy plus log(1); its
    value is that of the cross-entropy because log(1) = 0, and the two
    are distinct variables. *)
Theorem cost_equals_cross_entropy (vocab_size : Z) (args : namespace)
    (context state_dim layers mini_batch_size : Z) (skip : pyval) :
  getattr args "context" = Ok (VInt context) ->
  getattr args "state_dim" = Ok (VInt state_dim) ->
  getattr args "layers" = Ok (VInt layers) ->
  getattr args "skip_connections" = Ok skip ->
  getattr args "mini_batch_size" = Ok (VInt mini_batch_size) ->
  (1 <= vocab_size)%Z -> (1 <= state_dim)%Z -> (1 <= mini_batch_size)%Z ->
  (1 <= layers)%Z ->
  (truthy skip = true -> 2 <= layers)%Z ->
  exists cost cross_entropy updates,
    build_model_cw tanh vocab_size args = Ok (cost, cross_entropy, updates) /\
    cost = Named "regularized_cost" (Add cross_entropy (Log (Const 1))) /\
    (forall rho, eval rho cost = eval rho cross_entropy) /\
    cost <> cross_entropy.
Proof.
  intros Hc Hsd Hl Hsk Hmb Hv Hs Hm Hlayers Hskip.
  pose proof (build_graph vocab_size args context state_dim layers
                mini_batch_size skip Hc Hsd Hl Hsk Hmb ltac:(lia) ltac:(lia)
                ltac:(lia) Hlayers Hskip) as Eb.
  cbv zeta in Eb. unfold build_model_cw. rewrite Eb. cbn [bind].
  do 3 eexists. split; [reflexivity|]. cbn [l_cost l_cross_entropy].
  split; [reflexivity|]. split.
  - intros rho. cbn [eval]. rewrite ln_1. apply Rplus_0_r.
  - discriminate.
Qed.

End GraphFacts.
(** ** The properties on the concrete model *)

Lemma apply_periodic_gate_witness :
  exists update,
    (sw <- dot Example.states Example.W ;;
     pre <- madd Example.inputs sw ;;
     Ok (mmap (ClockworkBase.activation Example.brick) pre)) = Ok update /\
    has_shape 3 2 update /\
    (feqb (fmod 4%Z (of_int (ClockworkBase.period Example.brick))) (of_int 0)
       = true ->
     ClockworkBase.apply Example.brick Example.inputs Example.states
       Example.time None = Ok (update, scalar_add Example.time 1)) /\
    (feqb (fmod 4%Z (of_int (ClockworkBase.period Example.brick))) (of_int 0)
       = false ->
     ClockworkBase.apply Example.brick Example.inputs Example.states
       Example.time None = Ok (Example.states, scalar_add Example.time 1)).
Proof.
  apply (apply_periodic_gate Example.brick Example.inputs Example.states
           Example.time Example.W 4%Z 3 2);
    [reflexivity | shape | shape | shape | reflexivity].
Defined.

Lemma lookup_apply_witness :
  exists out,
    LookupTable.apply Example.table Example.indices = Ok out /\
    shape out = [2; 2; 2]%nat /\
    ndim out = 3%nat /\
    tensor_wf out /\
    data out = [0; 101; 20; 121; 10; 111; 10; 111]%Z.
Proof.
  exact (lookup_apply Example.table Example.indices
           (Matrix 2 [[0; 1]; [10; 11]; [20; 21]]%Z) [0; 100]%Z 3 2
           eq_refl eq_refl eq_refl
           ltac:(shape) eq_refl eq_refl
           ltac:(repeat constructor; lia)).
Defined.

Lemma transitions_periods_witness :
  exists l,
    build (fun x : Z => x) 50 Example.args = Ok l /\
    l_rnn l = RecurrentStack (transitions (fun x : Z => x) 7 3) true /\
    length (transitions (fun x : Z => x) 7 3) = 3%nat /\
    (forall i, (0 <= i < 3)%Z ->
       nth_error (transitions (fun x : Z => x) 7 3) (Z.to_nat i) =
       Some (ClockworkBase.init 7 (2 ^ (3 - i - 1)) (fun x : Z => x))) /\
    (forall i t t',
       nth_error (transitions (fun x : Z => x) 7 3) i = Some t ->
       nth_error (transitions (fun x : Z => x) 7 3) (S i) = Some t' ->
       ClockworkBase.period t = (2 * ClockworkBase.period t')%Z) /\
    (forall i j t t',
       nth_error (transitions (fun x : Z => x) 7 3) i = Some t ->
       nth_error (transitions (fun x : Z => x) 7 3) j = Some t' ->
       i <> j -> ClockworkBase.period t <> ClockworkBase.period t').
Proof.
  exact (transitions_periods (fun x : Z => x) 50 Example.args 20 7 3
           5 (VBool true) eq_refl eq_refl eq_refl eq_refl eq_refl
           ltac:(lia) ltac:(lia) ltac:(lia) ltac:(lia) ltac:(intros _; lia)).
Defined.

Lemma cross_entropy_graph_witness :
  let x :=
    Var "features" in
  let fork :=
    Fork (output_names 3 (truthy (VBool true))) (VInt 5)
                (output_dims 3 7 (truthy (VBool true)))
                (LookupTable.init 50 7) in
  let pre_rnn :=
    fun d : Z =>
        if truthy (VBool true)
        then Named ("pre_rnn_" ++ str d)%string
                   (BrickOut fork "apply" [("", x)] (Z.to_nat d))
        else Named "pre_rnn" (BrickOut fork "apply" [("", x)] 0) in
  let state0 :=
    fun d : Z =>
        Shared ("state0_" ++ str d)%string 5 7 in
  let kwargs :=
    flat_map
        (fun d : Z =>
           (if truthy (VBool true) || (d =? 0)%Z
            then [(("inputs" ++ suffix_of d)%string, pre_rnn d)] else [])
           ++ [(("states" ++ suffix_of d)%string, state0 d)])
        (range 3) in
  let rnn :=
    RecurrentStack (transitions (fun x : Z => x) 7 3) (truthy (VBool true)) in
  let states :=
    fun d : nat => BrickOut rnn "apply" kwargs (2 * d) in
  let h :=
    Named "hidden_state"
        (if (3 >? 1)%Z
         then Concatenate (map states (seq 0 (Z.to_nat 3))) 2
         else states 0%nat) in
  let updates :=
    map (fun d : nat =>
             (state0 (Z.of_nat d),
              LastStep (if (3 >? 1)%Z then states d else h)))
          (seq 0 (Z.to_nat 3)) in
  let presoft :=
    Named "presoft"
        (BrickOut (Linear "output_layer" (3 * 7) 50)
                  "apply" [("", SliceFrom h 20)] 0) in
  let nats :=
    BrickOut Softmax "categorical_cross_entropy"
        [("", Flatten (SliceFrom (Var "targets") 20));
         ("", Reshape presoft
                [Mul (ShapeOf presoft 1) (ShapeOf presoft 0);
                 ShapeOf presoft 2])] 0 in
  let cross_entropy :=
    Named "cross_entropy" (Div nats (Log (Const 2))) in
  let cost :=
    Named "regularized_cost" (Add cross_entropy (Log (Const 1))) in
  build_model_cw (fun x : Z => x) 50 Example.args
    = Ok (cost, cross_entropy, updates) /\
  (forall rho, eval rho cross_entropy = (rho nats / ln 2)%R).
Proof.
  exact (cross_entropy_graph (fun x : Z => x) 50 Example.args 20 7 3 5
           (VBool true) eq_refl eq_refl eq_refl eq_refl eq_refl
           ltac:(lia) ltac:(lia) ltac:(lia) ltac:(lia) ltac:(intros _; lia)).
Defined.

Lemma cost_equals_cross_entropy_witness :
  exists cost cross_entropy updates,
    build_model_cw (fun x : Z => x) 50 Example.args
      = Ok (cost, cross_entropy, updates) /\
    cost = Named "regularized_cost" (Add cross_entropy (Log (Const 1))) /\
    (forall rho, eval rho cost = eval rho cross_entropy) /\
    cost <> cross_entropy.
Proof.
  exact (cost_equals_cross_entropy (fun x : Z => x) 50 Example.args 20 7 3
           5 (VBool true) eq_refl eq_refl eq_refl eq_refl eq_refl
           ltac:(lia) ltac:(lia) ltac:(lia) ltac:(lia) ltac:(intros _; lia)).
Defined.

(** The flag set has no [--layers]: on the namespace of its defaults
    [build_model_cw] stops at its own [args.layers]. *)
Lemma build_model_cw_needs_layers
    (parse_tokens : argparse.ArgumentParser -> list string -> result namespace)
    (vocab_size : Z) :
  exists ns,
    parser.parse_args_as_specified parse_tokens [] = Ok ns /\
    build_model_cw (fun x : Z => x) vocab_size ns =
      Raise (AttributeError "Namespace" "layers").
Proof.
  eexists. split; reflexivity.
Qed.

(** * Further properties of the bricks and of the model graph *)

#[export] Instance Z_counting : CountingScalar Z.
Proof.
  constructor; intros; reflexivity.
Qed.

(** ** The lookup table beyond the non-negative range *)

Section LookupMore.
Context {F : Type} `{SF : Scalar F}.

Lemma take_row_wraps (w : matrix F) len d i :
  has_shape len d w -> (- Z.of_nat len <= i < Z.of_nat len)%Z ->
  take_row w i = Ok (nth (Z.to_nat (i mod Z.of_nat len)) (rows w) []) /\
  length (nth (Z.to_nat (i mod Z.of_nat len)) (rows w) []) = d.
Proof.
  intros Hw Hi.
  destruct (Z.neg_nonneg_cases i) as [Hneg | Hpos].
  - assert (Emod : (i mod Z.of_nat len = i + Z.of_nat len)%Z).
    { symmetry. apply (Z.mod_unique_pos _ _ (-1)); lia. }
    rewrite Emod.
    destruct (take_row_in_range w len d (i + Z.of_nat len) Hw ltac:(lia))
      as [E Hlen].
    split; [|exact Hlen]. rewrite <- E.
    unfold take_row. destruct Hw as (-> & _).
    replace (i <? 0)%Z with true by (symmetry; apply Z.ltb_lt; lia).
    replace (i + Z.of_nat len <? 0)%Z with false
      by (symmetry; apply Z.ltb_ge; lia).
    reflexivity.
  - rewrite Z.mod_small by lia.
    apply (take_row_in_range w len d i Hw). lia.
Qed.

Lemma take_row_outside (w : matrix F) i :
  (i < - Z.of_nat (nrows w) \/ Z.of_nat (nrows w) <= i)%Z ->
  take_row w i = Raise (FrameworkError "index out of bounds").
Proof.
  intros Hi. unfold take_row.
  destruct (i <? 0)%Z eqn:Eneg.
  - apply Z.ltb_lt in Eneg.
    replace (0 <=? i + Z.of_nat (nrows w))%Z with false
      by (symmetry; apply Z.leb_gt; lia).
    reflexivity.
  - apply Z.ltb_ge in Eneg.
    replace (i <? Z.of_nat (nrows w))%Z with false
      by (symmetry; apply Z.ltb_ge; lia).
    now rewrite Bool.andb_false_r.
Qed.

Lemma take_row_result (w : matrix F) i :
  (exists row, take_row w i = Ok row) \/
  take_row w i = Raise (FrameworkError "index out of bounds").
Proof.
  unfold take_row.
  destruct (_ && _); [|now right].
  destruct (nth_error _ _); [left; eauto | now right].
Qed.

Lemma mapM_raises {A B : Type} (f : A -> result B) (e : exn) xs :
  Forall (fun x => (exists y, f x = Ok y) \/ f x = Raise e) xs ->
  Exists (fun x => f x = Raise e) xs ->
  mapM f xs = Raise e.
Proof.
  induction 1 as [|x xs Hx _ IH]; intros Hex; [inversion Hex|].
  simpl. destruct Hx as [[y Ey] | Ee].
  - rewrite Ey. simpl.
    inversion Hex as [? ? Hhead | ? ? Htail]; subst; [congruence|].
    now rewrite (IH Htail).
  - now rewrite Ee.
Qed.

(** The lookup of rows that are known index by index. *)
Lemma lookup_apply_rows (self : LookupTable.t F) (indices : tensor Z)
    (w : matrix F) (bias : vector F) (d : nat) (row_of : Z -> list F) :
  LookupTable.W self = Ok w -> LookupTable.b self = Ok bias ->
  LookupTable.dim self = Z.of_nat d ->
  ncols w = d -> length bias = d ->
  tensor_wf indices ->
  Forall (fun i => take_row w i = Ok (row_of i) /\ length (row_of i) = d)
         (data indices) ->
  LookupTable.apply self indices =
    Ok (Tensor (shape indices ++ [d])
          (concat (map (fun i => map2 fadd (row_of i) bias) (data indices)))).
Proof.
  intros HW Hb Hdim Hw Hbias Hwf Hrows.
  set (taken := map row_of (data indices)).
  assert (Htaken : Forall (fun r => length r = length bias) taken).
  { apply Forall_forall. intros r Hr. apply in_map_iff in Hr as [i [<- Hi]].
    rewrite Forall_forall in Hrows. rewrite Hbias. apply (Hrows i Hi). }
  assert (Etake : take_rows w (flatten indices) = Ok (Matrix (ncols w) taken)).
  { unfold take_rows, flatten. rewrite (mapM_ok (take_row w) row_of).
    - reflexivity.
    - eapply Forall_impl; [|exact Hrows]. intros i Hi. apply Hi. }
  assert (Eshape : LookupTable.output_shape self indices
                   = map Z.of_nat (shape indices) ++ [Z.of_nat d]).
  { unfold LookupTable.output_shape, ndim. rewrite Hdim. f_equal.
    rewrite <- (map_map (fun i => nth i (shape indices) 0%nat) Z.of_nat).
    now rewrite map_nth_seq. }
  assert (Eback : map Z.to_nat (map Z.of_nat (shape indices) ++ [Z.of_nat d])
                  = shape indices ++ [d]).
  { rewrite map_app, map_map. simpl. rewrite Nat2Z.id. f_equal.
    rewrite <- (map_id (shape indices)) at 2. apply map_ext.
    intros n. apply Nat2Z.id. }
  assert (Elen : length (concat taken) = size_of (shape indices ++ [d])).
  { rewrite (length_concat_rows taken (length bias) Htaken).
    unfold taken. rewrite length_map, size_of_app, Hbias.
    unfold tensor_wf in Hwf. now rewrite Hwf. }
  unfold LookupTable.apply. rewrite HW. simpl. rewrite Hb. simpl.
  rewrite Etake. simpl.
  unfold reshape. rewrite Eshape, nonneg_dims_of_nat. simpl bind.
  rewrite Eback.
  assert (Esize : (size_of (shape indices ++ [d])
                     =? nrows (Matrix (ncols w) taken) * ncols w)%nat = true).
  { apply Nat.eqb_eq. unfold nrows. simpl. rewrite Hw, <- Elen.
    rewrite (length_concat_rows taken (length bias) Htaken). now rewrite Hbias. }
  rewrite Esize. simpl bind.
  unfold add_last_axis, ndim. simpl shape. simpl data.
  rewrite last_last, Hbias, Nat.eqb_refl, length_app. simpl length.
  replace (length (shape indices) + 1 =? 0)%nat with false
    by (symmetry; apply Nat.eqb_neq; lia).
  simpl. f_equal. f_equal.
  rewrite <- Hbias. rewrite (broadcast_rows bias taken Htaken).
  unfold taken. now rewrite map_map.
Qed.

(** A negative index counts from the end of the table: for entries in
    [-length, length) the lookup returns row [i mod length] of W plus the
    bias, so index -1 is the last representation. *)
Theorem lookup_apply_wraps (self : LookupTable.t F) (indices : tensor Z)
    (w : matrix F) (bias : vector F) (len d : nat) :
  LookupTable.W self = Ok w -> LookupTable.b self = Ok bias ->
  LookupTable.dim self = Z.of_nat d ->
  has_shape len d w -> length bias = d ->
  tensor_wf indices ->
  Forall (fun i => (- Z.of_nat len <= i < Z.of_nat len)%Z) (data indices) ->
  LookupTable.apply self indices =
    Ok (Tensor (shape indices ++ [d])
          (concat (map (fun i =>
                          map2 fadd
                            (nth (Z.to_nat (i mod Z.of_nat len)) (rows w) [])
                            bias)
                       (data indices)))).
Proof.
  intros HW Hb Hdim Hw Hbias Hwf Hrange.
  apply (lookup_apply_rows self indices w bias d
           (fun i => nth (Z.to_nat (i mod Z.of_nat len)) (rows w) []));
    auto.
  - apply Hw.
  - eapply Forall_impl; [|exact Hrange]. intros i Hi.
    apply (take_row_wraps w len d i Hw Hi).
Qed.

(** An index outside [-length, length) is refused: the lookup raises the
    framework's index error whatever the other indices are. *)
Theorem lookup_apply_out_of_bounds (self : LookupTable.t F)
    (indices : tensor Z) (w : matrix F) (bias : vector F) :
  LookupTable.W self = Ok w -> LookupTable.b self = Ok bias ->
  Exists (fun i => (i < - Z.of_nat (nrows w) \/ Z.of_nat (nrows w) <= i)%Z)
         (data indices) ->
  LookupTable.apply self indices =
    Raise (FrameworkError "index out of bounds").
Proof.
  intros HW Hb Hex.
  unfold LookupTable.apply. rewrite HW. simpl. rewrite Hb. simpl.
  unfold take_rows, flatten.
  rewrite (mapM_raises (take_row w) (FrameworkError "index out of bounds")).
  - reflexivity.
  - apply Forall_forall. intros i _. apply take_row_result.
  - eapply Exists_impl; [|exact Hex]. intros i Hi.
    now apply take_row_outside.
Qed.

End LookupMore.

Section LookupInitialized.
Context {F : Type} `{SF : Scalar F}.

Lemma nth_map_seq {A : Type} (g : nat -> A) (n k : nat) (z : A) :
  (k < n)%nat -> nth k (map g (seq 0 n)) z = g k.
Proof.
  intros Hk. apply nth_error_nth.
  rewrite nth_error_map, nth_error_seq.
  destruct (Nat.ltb_spec k n); [reflexivity | lia].
Qed.

Lemma map2_map_seq (f : F -> F -> F) (g h : nat -> F) (n : nat) :
  map2 f (map g (seq 0 n)) (map h (seq 0 n))
  = map (fun j => f (g j) (h j)) (seq 0 n).
Proof.
  unfold map2. generalize 0%nat. induction n as [|n IH]; intros a; simpl;
    [reflexivity|]. now rewrite IH.
Qed.

(** Allocation, initialisation and lookup together: a table of [len]
    representations of dimension [d] answers index [i] with the initial
    weights of row [i] plus the initial biases. *)
Theorem lookup_after_initialize (len d : Z) (weights_init : nat -> nat -> F)
    (biases_init : nat -> F) (indices : tensor Z) :
  (0 <= len)%Z -> (0 <= d)%Z ->
  tensor_wf indices ->
  Forall (fun i => (0 <= i < len)%Z) (data indices) ->
  exists table,
    (c <- LookupTable._allocate (LookupTable.init len d) ;;
     LookupTable._initialize weights_init biases_init c) = Ok table /\
    LookupTable.apply table indices =
      Ok (Tensor (shape indices ++ [Z.to_nat d])
            (concat (map (fun i =>
                            map (fun j => fadd (weights_init (Z.to_nat i) j)
                                               (biases_init j))
                                (seq 0 (Z.to_nat d)))
                         (data indices)))).
Proof.
  intros Hlen Hd Hwf Hrange.
  set (w := Matrix (Z.to_nat d)
              (map (fun i => map (weights_init i) (seq 0 (Z.to_nat d)))
                   (seq 0 (Z.to_nat len)))).
  set (bias := map biases_init (seq 0 (Z.to_nat d))).
  exists (LookupTable.mk len d [PMatrix w; PVector bias]).
  split.
  - unfold LookupTable._allocate, LookupTable.init, shared_floatx_nans_mat,
      shared_floatx_nans_vec, nonneg_dims. simpl.
    assert (E1 : (0 <=? len)%Z = true) by now apply Z.leb_le.
    assert (E2 : (0 <=? d)%Z = true) by now apply Z.leb_le.
    rewrite E1, E2. simpl.
    unfold LookupTable._initialize, LookupTable.set_params, LookupTable.W,
      LookupTable.b, fill_matrix, fill_vector, nrows. simpl.
    now rewrite !repeat_length.
  - assert (Hw : has_shape (Z.to_nat len) (Z.to_nat d) w).
    { unfold has_shape, nrows, w. simpl. rewrite length_map, length_seq.
      split; [reflexivity | split; [reflexivity|]].
      apply Forall_forall. intros row Hin.
      apply in_map_iff in Hin as [i [<- _]]. now rewrite length_map, length_seq. }
    rewrite (lookup_apply_rows _ indices w bias (Z.to_nat d)
               (fun i => map (weights_init (Z.to_nat i)) (seq 0 (Z.to_nat d)))).
    + do 3 f_equal. apply map_ext. intros i. unfold bias.
      apply map2_map_seq.
    + reflexivity.
    + reflexivity.
    + simpl. now rewrite Z2Nat.id.
    + reflexivity.
    + unfold bias. now rewrite length_map, length_seq.
    + exact Hwf.
    + eapply Forall_impl; [|exact Hrange]. intros i Hi. cbv beta in Hi.
      destruct (take_row_in_range w (Z.to_nat len) (Z.to_nat d) i Hw
                  ltac:(lia)) as [E Hl].
      rewrite E. unfold w. simpl.
      rewrite nth_map_seq by lia.
      split; [reflexivity|]. now rewrite length_map, length_seq.
Qed.

End LookupInitialized.

(** ** The clockwork step: shapes, mask errors and masked rows *)

Section StepShapes.
Context {F : Type} `{SF : Scalar F}.
Import ClockworkBase.

(** A step keeps the shapes: the next states have the shape of the
    states and the next time has the shape of the time. *)
Theorem apply_keeps_shapes (self : ClockworkBase.t F)
    inputs states time mask w t00 b d r c :
  W self = Ok w -> has_shape d d w ->
  has_shape b d inputs -> has_shape b d states ->
  has_shape r c time -> index00 time = Ok t00 ->
  (forall m, mask = Some m -> length m = b) ->
  exists next time',
    apply self inputs states time mask = Ok (next, time') /\
    has_shape b d next /\ has_shape r c time'.
Proof.
  intros HW Hw Hi Hs Htime Ht Hmask.
  destruct (apply_total self inputs states time mask w t00 b d
              HW Hw Hi Hs Ht Hmask) as [next [E Hn]].
  exists next, (scalar_add time 1).
  split; [exact E | split; [exact Hn|]].
  unfold scalar_add. now apply mmap_shape.
Qed.

(** A mask whose length is not the batch size is refused, whether or not
    the period fires. *)
Theorem apply_mask_length_raises (self : ClockworkBase.t F)
    inputs states time m w t00 b d :
  W self = Ok w -> has_shape d d w ->
  has_shape b d inputs -> has_shape b d states ->
  index00 time = Ok t00 ->
  length m <> b ->
  apply self inputs states time (Some m) =
    Raise (FrameworkError "Input dimension mis-match").
Proof.
  intros HW Hw Hi Hs Ht Hm.
  destruct (update_shape self inputs states w b d Hw Hi Hs) as [u [Eu Hu]].
  assert (Hcol : forall cand : matrix F, has_shape b d cand ->
            col_mul m cand = Raise (FrameworkError "Input dimension mis-match")).
  { intros cand (Rc & _). unfold col_mul. rewrite Rc.
    replace (length m =? b)%nat with false
      by (symmetry; now apply Nat.eqb_neq).
    reflexivity. }
  unfold apply. rewrite Ht. simpl. destruct (fires self t00).
  - rewrite HW. simpl. rewrite Eu. simpl. now rewrite (Hcol u Hu).
  - simpl. now rewrite (Hcol states Hs).
Qed.

End StepShapes.

Section MaskedRows.
Context {F : Type} {SF : Scalar F} {FL : FloatLaws F}.
Import ClockworkBase.

(** A row whose mask entry is 1 and whose previous state is finite in
    every entry gets, entry by entry, the value that the unmasked step
    computes for it (the sign of a zero apart). *)
Theorem apply_masked_row_taken (self : ClockworkBase.t F)
    inputs states time mask w t00 b d :
  W self = Ok w -> has_shape d d w ->
  has_shape b d inputs -> has_shape b d states ->
  index00 time = Ok t00 ->
  length mask = b ->
  exists masked unmasked,
    apply self inputs states time (Some mask)
      = Ok (masked, scalar_add time 1) /\
    apply self inputs states time None
      = Ok (unmasked, scalar_add time 1) /\
    forall i prev,
      nth_error mask i = Some (of_int 1) ->
      nth_error (rows states) i = Some prev ->
      Forall (fun x => finite_entry x = true) prev ->
      exists taken cand,
        nth_error (rows masked) i = Some taken /\
        nth_error (rows unmasked) i = Some cand /\
        Forall2 same_value taken cand.
Proof.
  intros HW Hw Hi Hs Ht Hm.
  destruct (masked_and_unmasked self inputs states time mask w t00 b d
              HW Hw Hi Hs Ht Hm)
    as [unmasked [masked (Eun & Ema & Hu & Hma & Hrow)]].
  exists masked, unmasked. split; [exact Ema|]. split; [exact Eun|].
  intros i prev Hi1 Hprev Hfin.
  assert (Hlt : (i < b)%nat)
    by (rewrite <- Hm; apply nth_error_Some; congruence).
  destruct (nth_error (rows unmasked) i) as [cand|] eqn:Ec;
    [|apply nth_error_None in Ec; destruct Hu as (Ru & _);
      unfold nrows in Ru; lia].
  specialize (Hrow i). rewrite Hi1, Ec, Hprev in Hrow.
  eexists; exists cand. split; [exact Hrow|]. split; [reflexivity|].
  apply taken_row; [|exact Hfin].
  rewrite (row_length unmasked b d i cand Hu Ec).
  now rewrite (row_length states b d i prev Hs Hprev).
Qed.

End MaskedRows.

(** ** The clockwork schedule *)

Section Schedule.
Context {F : Type} `{SF : Scalar F}.
Import ClockworkBase.

(** Between two ticks of its clock a brick holds its state: over unmasked
    steps at times k, k+1, ... none of which is a multiple of the period,
    the states come out as they went in, whatever the inputs are, as long
    as the times stay in the range [B] where the counter adds one exactly
    and the gate reads the whole number. *)
Theorem hold_between_ticks (self : ClockworkBase.t F) steps (B : Z) :
  (0 < period self)%Z ->
  counts_to (F := F) B ->
  reads_clock (F := F) (period self) B ->
  Forall (fun st => snd st = None) steps ->
  forall states (k : Z),
    (0 <= k)%Z -> (k + Z.of_nat (length steps) <= B)%Z ->
    (forall j, (0 <= j < Z.of_nat (length steps))%Z ->
               ((k + j) mod period self <> 0)%Z) ->
    iterate self steps states (row_matrix [of_int k]) =
      Ok (states, row_matrix [of_int (k + Z.of_nat (length steps))]).
Proof.
  intros Hp HB Hclock Hsteps.
  induction Hsteps as [|[inputs mask] rest Hmk _ IH]; intros states k Hk0 HkB Hk.
  - simpl. now rewrite Z.add_0_r.
  - simpl in Hmk. subst mask. simpl iterate.
    assert (E : apply self inputs states (row_matrix [of_int k]) None
                = Ok (states, row_matrix [of_int (k + 1)])).
    { unfold apply. rewrite index00_row. cbn [bind].
      unfold fires. rewrite (Hclock k) by (simpl length in HkB; lia).
      replace (k mod period self =? 0)%Z with false.
      - cbn [bind]. do 2 f_equal.
        unfold scalar_add, mmap, row_matrix. simpl.
        rewrite (HB k) by (simpl length in HkB; lia). reflexivity.
      - symmetry. apply Z.eqb_neq.
        specialize (Hk 0%Z). rewrite Z.add_0_r in Hk. apply Hk.
        simpl length. lia. }
    rewrite E. cbn [bind fst snd].
    rewrite (IH states (k + 1)%Z).
    + replace (k + Z.of_nat (length ((inputs, @None (vector F)) :: rest)))%Z
        with (k + 1 + Z.of_nat (length rest))%Z by (simpl length; lia).
      reflexivity.
    + lia.
    + simpl length in HkB. lia.
    + intros j Hj. replace (k + 1 + j)%Z with (k + (j + 1))%Z by lia.
      apply Hk. simpl length. lia.
Qed.

(** A sequence of steps over fitting inputs and masks never fails,
    whatever the entries are (NaN and the infinities included): the
    states keep their shape and the time stays a single entry. *)
Theorem iterate_keeps_shapes (self : ClockworkBase.t F) w b d steps :
  W self = Ok w -> has_shape d d w ->
  Forall (fun st => has_shape b d (fst st) /\
                    forall m, snd st = Some m -> length m = b) steps ->
  forall states (t : F),
    has_shape b d states ->
    exists final t',
      iterate self steps states (row_matrix [t]) =
        Ok (final, row_matrix [t']) /\
      has_shape b d final.
Proof. exact (iterate_total self w b d steps). Qed.

End Schedule.

(** ** Declared dimensions *)

Section DimsFacts.
Context {F : Type} `{SF : Scalar F}.
Import ClockworkBase.

(** The dimension that [get_dim] declares for the inputs and the states
    is the width of the allocated weight matrix and of the initial
    states; the mask has dimension 0; for the time it declares [dim] too,
    while the allocated time has a single column. *)
Theorem get_dim_of_allocated (d p : Z) (act : F -> F)
    (init : nat -> nat -> F) (batch : nat) :
  (0 <= d)%Z ->
  exists self w states0 time0,
    (c <- _allocate (ClockworkBase.init d p act) ;; _initialize init c)
      = Ok self /\
    W self = Ok w /\
    initial_states self batch = Ok (states0, time0) /\
    get_dim self "inputs" = Ok (Z.of_nat (ncols w)) /\
    get_dim self "states" = Ok (Z.of_nat (ncols states0)) /\
    get_dim self "mask" = Ok 0%Z /\
    get_dim self "time" = Ok d /\
    ncols time0 = 1%nat.
Proof.
  intros Hd.
  destruct (allocated d p act init Hd) as [w [Eself Hw]].
  do 4 eexists. split; [exact Eself|].
  split; [reflexivity|]. split; [reflexivity|].
  destruct Hw as (_ & Cw & _).
  unfold get_dim. simpl. rewrite Cw, repeat_length, Z2Nat.id by lia.
  repeat split.
Qed.

End DimsFacts.

(** ** The layers of the model *)

Section LayerClocks.
Context {F : Type} {SF : Scalar F} {CS : CountingScalar F}.
Variable tanh : F -> F.
Import ClockworkBase.




End LayerClocks.

(** ** The wiring of the model graph *)

Section Wiring.
Context {F : Type} `{SF : Scalar F}.
Variable tanh : F -> F.

(** The fork is given as many dimensions as names, each of them
    [state_dim]: one output per layer with skip connections, a single one
    without. *)
Theorem fork_outputs_consistent (layers state_dim : Z) (skip : bool) :
  length (output_names layers skip) = length (output_dims layers state_dim skip) /\
  Forall (fun dim => dim = state_dim) (output_dims layers state_dim skip) /\
  length (output_names layers skip) =
    (if skip then Z.to_nat layers else Nat.min 1 (Z.to_nat layers)).
Proof.
  unfold output_names, output_dims. split; [|split].
  - induction (range layers) as [|d ds IH]; simpl; [reflexivity|].
    destruct ((d =? 0)%Z || skip); simpl; [f_equal|]; exact IH.
  - apply Forall_forall. intros dim Hin.
    apply in_flat_map in Hin as [d [_ Hd]].
    destruct ((d =? 0)%Z || skip); [|destruct Hd].
    destruct Hd as [<- | []]. reflexivity.
  - destruct skip; [apply output_names_skip|].
    destruct (Z.le_gt_cases 1 layers) as [Hl | Hl].
    + fold (output_names layers false).
      rewrite (output_names_plain layers Hl). simpl length. lia.
    + unfold range. replace (Z.to_nat layers) with 0%nat by lia. reflexivity.
Qed.

Lemma str_inj (d d' : Z) : str d = str d' -> d = d'.
Proof.
  unfold str. intros E.
  assert (Hnn : forall z, Z.to_int z <> Decimal.Pos Decimal.Nil /\
                          Z.to_int z <> Decimal.Neg Decimal.Nil).
  { intros [|q|q]; simpl; split; try discriminate;
      intros [= Hq]; now apply DecimalPos.Unsigned.to_uint_nonnil in Hq. }
  apply DecimalZ.to_int_inj.
  assert (Some (Z.to_int d) = Some (Z.to_int d')) as [= ->]; [|reflexivity].
  rewrite <- (NilZero.isi (Z.to_int d)) by apply Hnn.
  rewrite <- (NilZero.isi (Z.to_int d')) by apply Hnn.
  now rewrite E.
Qed.

Lemma append_inv_head (p a b : string) :
  (p ++ a)%string = (p ++ b)%string -> a = b.
Proof.
  induction p as [|c p IH]; simpl; [auto|]. intros [= E]. auto.
Qed.

(** The keyword names of distinct layers are distinct, and an inputs name
    is never a states name: no entry of the keyword dictionary of the
    recurrent stack overwrites another. *)
Theorem layer_names_distinct (d d' : Z) :
  (0 <= d)%Z -> (0 <= d')%Z ->
  (("inputs" ++ suffix_of d)%string = ("inputs" ++ suffix_of d')%string -> d = d') /\
  (("states" ++ suffix_of d)%string = ("states" ++ suffix_of d')%string -> d = d') /\
  ("inputs" ++ suffix_of d)%string <> ("states" ++ suffix_of d')%string.
Proof.
  intros Hd Hd'.
  assert (Hsuf : suffix_of d = suffix_of d' -> d = d').
  { unfold suffix_of.
    destruct (d >? 0)%Z eqn:E; destruct (d' >? 0)%Z eqn:E';
      rewrite Z.gtb_ltb in E, E'.
    - intros H. apply append_inv_head in H. now apply str_inj.
    - discriminate.
    - discriminate.
    - intros _. apply Z.ltb_ge in E, E'. lia. }
  split; [|split].
  - intros H. apply append_inv_head in H. auto.
  - intros H. apply append_inv_head in H. auto.
  - discriminate.
Qed.

(** Without one of the five attributes it reads, [build_model_cw] ends
    in an error that is not the framework's: it is raised by a statement
    of the function itself. *)
Theorem build_model_cw_missing_attribute (vocab_size : Z) (args : namespace)
    (name : string) :
  In name ["context"; "state_dim"; "layers"; "skip_connections";
           "mini_batch_size"] ->
  lookup name args = None ->
  exists e,
    build_model_cw tanh vocab_size args = Raise e /\
    from_framework e = false.
Proof.
  intros Hin Hnone.
  unfold build_model_cw, build, getattr.
  destruct (lookup "context" args) as [context|] eqn:E1; cbn [bind];
    [|eexists; split; reflexivity].
  destruct (lookup "state_dim" args) as [state_dim|] eqn:E2; cbn [bind];
    [|eexists; split; reflexivity].
  destruct (lookup "layers" args) as [layers|] eqn:E3; cbn [bind];
    [|eexists; split; reflexivity].
  destruct (lookup "skip_connections" args) as [skip|] eqn:E4; cbn [bind];
    [|eexists; split; reflexivity].
  destruct layers as [z|m e|s|b]; cbn [as_int bind];
    try (eexists; split; reflexivity).
  all: destruct (lookup "mini_batch_size" args) as [mbs|] eqn:E5; cbn [bind];
    [|eexists; split; reflexivity].
  all: exfalso; simpl in Hin;
    repeat (destruct Hin as [<- | Hin]; [congruence|]); exact Hin.
Qed.

(** With skip connections and a single layer the fork returns one
    variable, and taking its length fails: for sizes of the lookup table
    that are not negative, [build_model_cw] raises a [TypeError]. *)
Theorem build_model_cw_skip_single_layer (vocab_size : Z) (args : namespace)
    (state_dim : Z) (context skip mini_batch_size : pyval) :
  getattr args "context" = Ok context ->
  getattr args "state_dim" = Ok (VInt state_dim) ->
  getattr args "layers" = Ok (VInt 1) ->
  getattr args "skip_connections" = Ok skip ->
  getattr args "mini_batch_size" = Ok mini_batch_size ->
  (0 <= vocab_size)%Z -> (0 <= state_dim)%Z ->
  truthy skip = true ->
  build_model_cw tanh vocab_size args =
    Raise (TypeError "object of type 'TensorVariable' has no len()").
Proof.
  intros Hc Hsd Hl Hsk Hmb Hv Hs Htrue.
  unfold build_model_cw, build. rewrite Hc, Hsd, Hl, Hsk, Hmb.
  cbn [bind as_int numpy_dim]. rewrite Htrue.
  change (1 <? 1)%Z with false. cbv iota.
  rewrite (proj2 (Z.leb_le 0 state_dim) Hs). cbn [bind].
  destruct (lookup_allocates (F := F) vocab_size state_dim Hv Hs) as [tbl ->].
  reflexivity.
Qed.

(** A negative size of the lookup table, or a batch size that is not an
    integer, is refused by the framework while the graph is built: the
    table is allocated when the fork is applied, and numpy builds the
    initial states when line 95 runs. *)
Theorem build_model_cw_refuses_sizes (vocab_size : Z) (args : namespace)
    (state_dim layers : Z) (context skip mini_batch_size : pyval) :
  getattr args "context" = Ok context ->
  getattr args "state_dim" = Ok (VInt state_dim) ->
  getattr args "layers" = Ok (VInt layers) ->
  getattr args "skip_connections" = Ok skip ->
  getattr args "mini_batch_size" = Ok mini_batch_size ->
  (1 <= layers)%Z ->
  (truthy skip = true -> 2 <= layers)%Z ->
  ((vocab_size < 0)%Z \/ (state_dim < 0)%Z \/
   (exists s, mini_batch_size = VStr s) \/
   (exists z, mini_batch_size = VInt z /\ (z < 0)%Z)) ->
  exists e,
    build_model_cw tanh vocab_size args = Raise e /\
    from_framework e = true.
Proof.
  intros Hc Hsd Hl Hsk Hmb Hlayers Hskip Hbad.
  unfold build_model_cw, build. rewrite Hc, Hsd, Hl, Hsk, Hmb.
  cbn [bind as_int numpy_dim].
  replace (layers <? 1)%Z with false by (symmetry; apply Z.ltb_ge; lia).
  destruct (Z.leb_spec 0 state_dim) as [Hs | Hs];
    [|eexists; split; reflexivity].
  cbn [bind].
  destruct (Z.leb_spec 0 vocab_size) as [Hv | Hv].
  - destruct (lookup_allocates (F := F) vocab_size state_dim Hv Hs) as [tbl ->].
    cbn [bind].
    assert (Hmbs : forall d, exists e,
              init_state (F := F) mini_batch_size state_dim d = Raise e /\
              from_framework e = true).
    { intros d. unfold init_state.
      destruct Hbad as [Hbad | [Hbad | [[s ->] | [z [-> Hz]]]]]; try lia.
      - eexists; split; reflexivity.
      - cbn [numpy_dim]. destruct (Z.leb_spec 0 z); [lia|].
        eexists; split; reflexivity. }
    destruct (Hmbs 0%Z) as [e [He Hfw]]. exists e. split; [|exact Hfw].
    rewrite (range_pos layers Hlayers).
    destruct (truthy skip) eqn:Esk.
    + specialize (Hskip eq_refl). rewrite output_names_skip.
      destruct (Z.to_nat layers) as [|[|n]] eqn:En; try lia.
      cbn [outputs name_pre_rnn bind mapM]. unfold layer_kwargs at 1.
      rewrite He. reflexivity.
    + rewrite (output_names_plain layers Hlayers).
      cbn [length outputs name_pre_rnn bind mapM]. unfold layer_kwargs at 1.
      rewrite He. reflexivity.
  - unfold LookupTable._allocate, LookupTable.init, shared_floatx_nans_mat,
      nonneg_dims. cbn [LookupTable.length LookupTable.dim forallb].
    destruct (Z.leb_spec 0 vocab_size); [lia|].
    eexists; split; reflexivity.
Qed.

(** For two or more layers and sizes of at least one the hidden state is
    the concatenation, along axis 2, of the even outputs of the stack
    (the states, not the times), and update d replaces the shared
    variable state0_d, of shape (mini_batch_size, state_dim), by the last
    step of the states of layer d. *)
Theorem updates_wiring (vocab_size : Z) (args : namespace)
    (context state_dim layers mini_batch_size : Z) (skip : pyval) :
  getattr args "context" = Ok (VInt context) ->
  getattr args "state_dim" = Ok (VInt state_dim) ->
  getattr args "layers" = Ok (VInt layers) ->
  getattr args "skip_connections" = Ok skip ->
  getattr args "mini_batch_size" = Ok (VInt mini_batch_size) ->
  (1 <= vocab_size)%Z -> (1 <= state_dim)%Z -> (1 <= mini_batch_size)%Z ->
  (2 <= layers)%Z ->
  let x :=
    Var "features" in
  let fork :=
    Fork (output_names layers (truthy skip)) (VInt mini_batch_size)
                (output_dims layers state_dim (truthy skip))
                (LookupTable.init vocab_size state_dim) in
  let pre_rnn :=
    fun d : Z =>
        if truthy skip
        then Named ("pre_rnn_" ++ str d)%string
                   (BrickOut fork "apply" [("", x)] (Z.to_nat d))
        else Named "pre_rnn" (BrickOut fork "apply" [("", x)] 0) in
  let state0 :=
    fun d : Z =>
        Shared ("state0_" ++ str d)%string mini_batch_size state_dim in
  let kwargs :=
    flat_map
        (fun d : Z =>
           (if truthy skip || (d =? 0)%Z
            then [(("inputs" ++ suffix_of d)%string, pre_rnn d)] else [])
           ++ [(("states" ++ suffix_of d)%string, state0 d)])
        (range layers) in
  let rnn :=
    RecurrentStack (transitions tanh state_dim layers) (truthy skip) in
  let states :=
    fun d : nat => BrickOut rnn "apply" kwargs (2 * d) in
  exists l,
    build tanh vocab_size args = Ok l /\
    l_rnn l = rnn /\
    l_h l = Named "hidden_state"
              (Concatenate (map states (seq 0 (Z.to_nat layers))) 2) /\
    l_updates l =
      map (fun d => (Shared ("state0_" ++ str (Z.of_nat d))%string
                            mini_batch_size state_dim,
                     LastStep (states d)))
          (seq 0 (Z.to_nat layers)).
Proof.
  intros Hc Hsd Hl Hsk Hmb Hv Hs Hm Hlayers.
  pose proof (build_graph tanh vocab_size args context state_dim layers
                mini_batch_size skip Hc Hsd Hl Hsk Hmb ltac:(lia) ltac:(lia)
                ltac:(lia) ltac:(lia) ltac:(intros _; lia)) as Eb.
  cbv zeta in *. eexists. split; [exact Eb|].
  cbn [l_rnn l_h l_updates].
  replace (layers >? 1)%Z with true by (symmetry; apply Z.gtb_lt; lia).
  split; [reflexivity|]. split; reflexivity.
Qed.

End Wiring.

(** ** The further properties on the concrete model *)

Lemma lookup_apply_wraps_witness :
  LookupTable.apply Example.table (Tensor [3]%nat [-1; 0; -3]%Z) =
    Ok (Tensor [3; 2]%nat [20; 121; 0; 101; 0; 101]%Z).
Proof.
  exact (lookup_apply_wraps Example.table (Tensor [3]%nat [-1; 0; -3]%Z)
           (Matrix 2 [[0; 1]; [10; 11]; [20; 21]]%Z) [0; 100]%Z 3 2
           eq_refl eq_refl eq_refl ltac:(shape) eq_refl eq_refl
           ltac:(repeat constructor; lia)).
Defined.

Lemma lookup_apply_out_of_bounds_witness :
  LookupTable.apply Example.table (Tensor [2]%nat [1; 3]%Z) =
    Raise (FrameworkError "index out of bounds").
Proof.
  apply (lookup_apply_out_of_bounds Example.table (Tensor [2]%nat [1; 3]%Z)
           (Matrix 2 [[0; 1]; [10; 11]; [20; 21]]%Z) [0; 100]%Z);
    [reflexivity | reflexivity |].
  apply Exists_cons_tl. apply Exists_cons_hd. simpl. lia.
Defined.

Lemma lookup_after_initialize_witness :
  exists table,
    (c <- LookupTable._allocate (LookupTable.init 3 2) ;;
     LookupTable._initialize (fun i j => Z.of_nat (10 * i + j))
       (fun j => (100 * Z.of_nat j)%Z) c) = Ok table /\
    LookupTable.apply table Example.indices =
      Ok (Tensor (shape Example.indices ++ [Z.to_nat 2])
            (concat (map (fun i =>
                            map (fun j => fadd (Z.of_nat (10 * Z.to_nat i + j))
                                               (100 * Z.of_nat j)%Z)
                                (seq 0 (Z.to_nat 2)))
                         (data Example.indices)))).
Proof.
  apply (lookup_after_initialize 3%Z 2%Z (fun i j => Z.of_nat (10 * i + j))
           (fun j => (100 * Z.of_nat j)%Z) Example.indices);
    [lia | lia | reflexivity | repeat constructor; lia].
Defined.

Lemma apply_keeps_shapes_witness :
  exists next time',
    ClockworkBase.apply Example.brick Example.inputs Example.states
      Example.time (Some Example.mask) = Ok (next, time') /\
    has_shape 3 2 next /\ has_shape 1 1 time'.
Proof.
  apply (apply_keeps_shapes Example.brick Example.inputs Example.states
           Example.time (Some Example.mask) Example.W 4%Z 3 2 1 1);
    [reflexivity | shape | shape | shape | shape | reflexivity |].
  intros m E. inversion E. reflexivity.
Defined.

Lemma apply_mask_length_raises_witness :
  ClockworkBase.apply Example.brick Example.inputs Example.states Example.time
    (Some [1; 0]%Z) = Raise (FrameworkError "Input dimension mis-match").
Proof.
  apply (apply_mask_length_raises Example.brick Example.inputs Example.states
           Example.time [1; 0]%Z Example.W 4%Z 3 2);
    [reflexivity | shape | shape | shape | reflexivity | simpl; lia].
Defined.

Lemma get_dim_of_allocated_witness :
  exists self w states0 time0,
    (c <- ClockworkBase._allocate
            (ClockworkBase.init 2 2 (fun x : Z => (x * 10)%Z)) ;;
     ClockworkBase._initialize (fun i j => Z.of_nat (i + 2 * j)) c) = Ok self /\
    ClockworkBase.W self = Ok w /\
    ClockworkBase.initial_states self 3 = Ok (states0, time0) /\
    get_dim self "inputs" = Ok (Z.of_nat (ncols w)) /\
    get_dim self "states" = Ok (Z.of_nat (ncols states0)) /\
    get_dim self "mask" = Ok 0%Z /\
    get_dim self "time" = Ok 2%Z /\
    ncols time0 = 1%nat.
Proof.
  apply (get_dim_of_allocated 2%Z 2%Z (fun x : Z => (x * 10)%Z)
           (fun i j => Z.of_nat (i + 2 * j)) 3). lia.
Defined.



Lemma layer_names_distinct_witness :
  (("inputs" ++ suffix_of 1)%string = ("inputs" ++ suffix_of 12)%string
     -> 1 = 12)%Z /\
  (("states" ++ suffix_of 1)%string = ("states" ++ suffix_of 12)%string
     -> 1 = 12)%Z /\
  ("inputs" ++ suffix_of 1)%string <> ("states" ++ suffix_of 12)%string.
Proof.
  apply (layer_names_distinct 1 12); lia.
Defined.

Lemma build_model_cw_missing_attribute_witness :
  exists e,
    build_model_cw (fun x : Z => x) 50
      [("context", VInt 20); ("state_dim", VInt 7)] = Raise e /\
    from_framework e = false.
Proof.
  apply (build_model_cw_missing_attribute (fun x : Z => x) 50
           [("context", VInt 20); ("state_dim", VInt 7)] "layers");
    [simpl; auto | reflexivity].
Defined.

Lemma build_model_cw_skip_single_layer_witness :
  build_model_cw (fun x : Z => x) 50
    [("context", VInt 20); ("state_dim", VInt 7); ("layers", VInt 1);
     ("skip_connections", VBool true); ("mini_batch_size", VInt 5)] =
  Raise (TypeError "object of type 'TensorVariable' has no len()").
Proof.
  exact (build_model_cw_skip_single_layer (fun x : Z => x) 50
           [("context", VInt 20); ("state_dim", VInt 7); ("layers", VInt 1);
            ("skip_connections", VBool true); ("mini_batch_size", VInt 5)]
           7 (VInt 20) (VBool true) (VInt 5)
           eq_refl eq_refl eq_refl eq_refl eq_refl
           ltac:(lia) ltac:(lia) eq_refl).
Defined.

Lemma build_model_cw_refuses_sizes_witness :
  exists e,
    build_model_cw (fun x : Z => x) 50
      [("context", VInt 20); ("state_dim", VInt 7); ("layers", VInt 3);
       ("skip_connections", VBool true); ("mini_batch_size", VStr "five")]
      = Raise e /\
    from_framework e = true.
Proof.
  exact (build_model_cw_refuses_sizes (fun x : Z => x) 50
           [("context", VInt 20); ("state_dim", VInt 7); ("layers", VInt 3);
            ("skip_connections", VBool true);
            ("mini_batch_size", VStr "five")]
           7 3 (VInt 20) (VBool true) (VStr "five")
           eq_refl eq_refl eq_refl eq_refl eq_refl
           ltac:(lia) ltac:(intros _; lia)
           (or_intror (or_intror (or_introl (ex_intro _ "five" eq_refl))))).
Defined.

Lemma updates_wiring_witness :
  let x :=
    Var "features" in
  let fork :=
    Fork (output_names 3 (truthy (VBool true))) (VInt 5)
                (output_dims 3 7 (truthy (VBool true)))
                (LookupTable.init 50 7) in
  let pre_rnn :=
    fun d : Z =>
        if truthy (VBool true)
        then Named ("pre_rnn_" ++ str d)%string
                   (BrickOut fork "apply" [("", x)] (Z.to_nat d))
        else Named "pre_rnn" (BrickOut fork "apply" [("", x)] 0) in
  let state0 :=
    fun d : Z =>
        Shared ("state0_" ++ str d)%string 5 7 in
  let kwargs :=
    flat_map
        (fun d : Z =>
           (if truthy (VBool true) || (d =? 0)%Z
            then [(("inputs" ++ suffix_of d)%string, pre_rnn d)] else [])
           ++ [(("states" ++ suffix_of d)%string, state0 d)])
        (range 3) in
  let rnn :=
    RecurrentStack (transitions (fun x : Z => x) 7 3) (truthy (VBool true)) in
  let states :=
    fun d : nat => BrickOut rnn "apply" kwargs (2 * d) in
  exists l,
    build (fun x : Z => x) 50 Example.args = Ok l /\
    l_rnn l = rnn /\
    l_h l = Named "hidden_state"
              (Concatenate (map states (seq 0 (Z.to_nat 3))) 2) /\
    l_updates l =
      map (fun d => (Shared ("state0_" ++ str (Z.of_nat d))%string 5 7,
                     LastStep (states d)))
          (seq 0 (Z.to_nat 3)).
Proof.
  exact (updates_wiring (fun x : Z => x) 50 Example.args 20 7 3 5
           (VBool true) eq_refl eq_refl eq_refl eq_refl eq_refl
           ltac:(lia) ltac:(lia) ltac:(lia) ltac:(lia)).
Defined.

Module Float64Steps.
Import Floats Float64 Float64Laws FloatExample ClockworkBase.

Lemma counts_to_eight : counts_to (F := float) 8.
Proof.
  intros z Hz.
  assert (Ez : (z = 0 \/ z = 1 \/ z = 2 \/ z = 3 \/ z = 4 \/ z = 5 \/ z = 6
               \/ z = 7)%Z) by lia.
  repeat (destruct Ez as [-> | Ez]; [vm_compute; reflexivity|]).
  subst z. vm_compute. reflexivity.
Qed.

Lemma reads_clock_eight : reads_clock (F := float) 4 8.
Proof.
  intros z Hz.
  assert (Ez : (z = 0 \/ z = 1 \/ z = 2 \/ z = 3 \/ z = 4 \/ z = 5 \/ z = 6
               \/ z = 7)%Z) by lia.
  repeat (destruct Ez as [-> | Ez]; [vm_compute; reflexivity|]).
  subst z. vm_compute. reflexivity.
Qed.

Lemma apply_masked_row_taken_witness :
  exists masked unmasked,
    apply brick inputs states time (Some mask)
      = Ok (masked, scalar_add time 1) /\
    apply brick inputs states time None
      = Ok (unmasked, scalar_add time 1) /\
    forall i prev,
      nth_error mask i = Some (of_int 1) ->
      nth_error (rows states) i = Some prev ->
      Forall (fun x => finite_entry x = true) prev ->
      exists taken cand,
        nth_error (rows masked) i = Some taken /\
        nth_error (rows unmasked) i = Some cand /\
        Forall2 same_value taken cand.
Proof.
  exact (apply_masked_row_taken brick inputs states time mask FloatExample.W
           4%float 3 2
           eq_refl ltac:(shape) ltac:(shape) ltac:(shape) eq_refl eq_refl).
Defined.

Lemma hold_between_ticks_witness :
  iterate (unit_brick 4) [unit_step; unit_step; unit_step]
    (Matrix 1 [[0.5]]%float) (row_matrix [of_int 5]) =
  Ok (Matrix 1 [[0.5]]%float, row_matrix [of_int (5 + Z.of_nat 3)]).
Proof.
  exact (hold_between_ticks (unit_brick 4) [unit_step; unit_step; unit_step]
           8%Z ltac:(simpl; lia) counts_to_eight reads_clock_eight
           ltac:(repeat constructor) (Matrix 1 [[0.5]]%float) 5%Z
           ltac:(lia) ltac:(simpl; lia)
           ltac:(intros j Hj; simpl in Hj;
                 assert (Ej : (j = 0 \/ j = 1 \/ j = 2)%Z) by lia;
                 destruct Ej as [-> | [-> | ->]]; simpl; discriminate)).
Defined.

Lemma iterate_keeps_shapes_witness :
  exists final t',
    iterate fresh [unit_step; unit_step] (Matrix 1 [[1]]%float)
      (row_matrix [of_int 0]) = Ok (final, row_matrix [t']) /\
    has_shape 1 1 final.
Proof.
  exact (iterate_keeps_shapes fresh (Matrix 1 [[PrimFloat.nan]]) 1 1
           [unit_step; unit_step] eq_refl ltac:(shape)
           ltac:(repeat constructor; discriminate)
           (Matrix 1 [[1]]%float) (of_int 0) ltac:(shape)).
Defined.

End Float64Steps.
